(** * Job lifecycle and queue scheduler of the HeyGem API server

    A shallow embedding of the video DAO (dao/video.js), the video service
    (services/video.js), the task service (services/task.js), the job
    routes (routes/videos.js), the background timer (background/index.js)
    and the environment defaults (config/env-validation.js), followed by
    the properties of the job state machine, of the single-worker queue and
    of the files of a job. *)

From Stdlib Require Import ZArith Lia DecimalString.
From stdpp Require Import base strings gmap list sorting pretty.

Open Scope string_scope.
Open Scope list_scope.

(** ** JavaScript values as they are bound to SQL parameters *)

(** A column of the [video] table, or a field of a JSON answer, holds
    [null], a number or a string. *)
Inductive value :=
  | VNull
  | VNum (n : Z)
  | VStr (s : string).

#[global] Instance value_eq_dec : EqDecision value.
Proof. solve_decision. Defined.

#[global] Instance value_inhabited : Inhabited value := populate VNull.

(** A row returned by [SELECT *], and the object literals handed to
    [videoDao.update], are JavaScript objects keyed by column name. *)
Abbreviation row := (gmap string value).

(** [object.key]: a key the object lacks reads as a falsy non-value; the
    table has every column on every row, so it is read as [null]. *)
Definition get (o : row) (key : string) : value := default VNull (o !! key).

(** JavaScript truthiness: [null], [0] and the empty string are falsy. *)
Definition truthy (v : value) : bool :=
  match v with
  | VNull => false
  | VNum n => negb (Z.eqb n 0)
  | VStr s => negb (String.eqb s EmptyString)
  end.

(** [a || b] *)
Definition js_or (a b : value) : value := if truthy a then a else b.

(** [`${v}`] inside a template literal. *)
Definition to_string (v : value) : string :=
  match v with
  | VNull => "null"
  | VNum n => pretty n
  | VStr s => s
  end.

(** ** The key of the [video] table *)

(** Modelled from the spec: the schema script is not among the sources.
    The id of a job is the integer that [insert] returns
    ([info.lastInsertRowid]; the routes document it as [type: integer] and
    the services as [@param {number}]), so the [id] column is an integer
    key.  A parameter bound to [WHERE id = ?] is compared as an integer
    when it is one, or when it is a text that spells one in decimal digits
    (the id of a request path, [req.params.id], is such a text); any other
    value is compared as it stands. *)
Definition key_of (id : value) : value :=
  match id with
  | VStr text =>
      match NilZero.int_of_string text with
      | Some digits => VNum (Z.of_int digits)
      | None => id
      end
  | _ => id
  end.

(** ** dao/video.js *)

Module videoDao.

(** Modelled from the spec: the schema script db/sql.js is not among the
    sources.  The columns are the fields of a Job in the data model, under
    the names the DAO callers use for them. *)
Definition columns : list string :=
  [ "id"; "name"; "status"; "message"; "progress"; "file_path";
    "audio_path"; "param"; "code"; "model_id"; "voice_id";
    "text_content"; "duration"; "created_at" ].

(** The table is the list of its rows in rowid order, the order in which a
    [SELECT] without [ORDER BY] scans it. *)

(** [SELECT * FROM video WHERE status = ?] *)
Definition selectByStatus (status : string) (video : list row) : list row :=
  filter (λ r, get r "status" = VStr status) video.

(** [SELECT * FROM video WHERE status = ? LIMIT 1] *)
Definition findFirstByStatus (status : string) (video : list row) : option row :=
  head (selectByStatus status video).

(** [SELECT * FROM video WHERE id = ?] *)
Definition selectByID (id : value) (video : list row) : option row :=
  head (filter (λ r, key_of (get r "id") = key_of id) video).

(** [UPDATE video SET k1 = ?, ... WHERE id = ?]: the keys of the object
    other than [id] are assigned on the rows whose id is [video.id]. *)
Definition update (video : row) (table : list row) : list row :=
  let sets := delete "id" video in
  (λ r, if decide (key_of (get r "id") = key_of (get video "id")) then sets ∪ r else r)
    <$> table.

(** [updateStatus(id, status, message, progress = 0, file_path = '')] *)
Definition updateStatus (id : value) (status : string) (message : value)
    (progress : value) (file_path : value) (table : list row) : list row :=
  (λ r, if decide (key_of (get r "id") = key_of id)
        then {[ "status" := VStr status; "message" := message;
                "progress" := progress; "file_path" := file_path ]} ∪ r
        else r) <$> table.

(** [DELETE FROM video WHERE id = ?] *)
Definition remove (id : value) (table : list row) : list row :=
  filter (λ r, key_of (get r "id") ≠ key_of id) table.

Definition rowid (r : row) : Z :=
  match key_of (get r "id") with VNum n => n | _ => 0%Z end.

(** Modelled from the spec: [insert(job) → id] assigns the identity.  The
    key is an integer rowid, one more than the largest in the table. *)
Definition lastInsertRowid (table : list row) : Z :=
  (1 + foldr (λ r m, Z.max (rowid r) m) 0 table)%Z.

(** [insert into video (columns, created_at) values (..., Date.now())]:
    the columns that are not named are [NULL]. *)
Definition insert (video : row) (now : Z) (table : list row) : list row * Z :=
  let id := lastInsertRowid table in
  let blank : row := list_to_map ((λ c, (c, VNull)) <$> columns) in
  (table ++ [ <["id" := VNum id]> (<["created_at" := VNum now]> (video ∪ blank)) ], id).

End videoDao.

(** ** Control flow: exceptions, promises and the immediate queue *)

(** How a call ends: it returns, it throws an [Error] with a message, or it
    is an [async] call whose promise has not settled yet.  The same three
    cases describe what a remote gateway has answered so far. *)
Inductive completion (A : Type) :=
  | Returned (a : A)
  | Thrown (message : string)
  | Awaiting.
Arguments Returned {A} a.
Arguments Thrown {A} message.
Arguments Awaiting {A}.

(** The state a handler or a timer callback runs against: the [video] table,
    the [synthesizeVideo(id)] callbacks queued with [setImmediate], and the
    rejections of promises that no caller awaits. *)
Record runtime := Runtime {
  table : list row;
  immediateQueue : list value;
  unhandledRejections : list string
}.

Definition js (A : Type) : Type := runtime → completion A * runtime.

#[global] Instance js_ret : MRet js := λ A a s, (Returned a, s).

#[global] Instance js_bind : MBind js := λ A B f m s,
  match m s with
  | (Returned a, s') => f a s'
  | (Thrown e, s') => (Thrown e, s')
  | (Awaiting, s') => (Awaiting, s')
  end.

(** [throw new Error(message)] *)
Definition throw {A} (message : string) : js A := λ s, (Thrown message, s).

(** [try { body } catch (error) { handler }], with [error.message] bound. *)
Definition try_catch {A} (body : js A) (handler : string → js A) : js A := λ s,
  match body s with
  | (Thrown e, s') => handler e s'
  | r => r
  end.

(** [await p] *)
Definition await {A} (p : completion A) : js A := λ s, (p, s).

(** A DAO read and a DAO write on the shared connection. *)
Definition query {A} (q : list row → A) : js A := λ s, (Returned (q (table s)), s).

Definition exec (u : list row → list row) : js unit := λ s,
  (Returned tt, Runtime (u (table s)) (immediateQueue s) (unhandledRejections s)).

(** [setImmediate(() => synthesizeVideo(videoId))] *)
Definition setImmediate (videoId : value) : js unit := λ s,
  (Returned tt, Runtime (table s) (immediateQueue s ++ [videoId]) (unhandledRejections s)).

(** ** External collaborators *)

(** The [data] field of an answer: absent, [null], or an object with its
    [status], [msg], [progress] and [result]. *)
Inductive data_field :=
  | NoData
  | NullData
  | Data (data : row).

(** The answer of [GET /query?code=...]: [code], [msg] and [data]. *)
Record statusResponse := StatusResponse {
  sr_code : value;
  sr_msg : value;
  sr_data : data_field
}.

(** The [TypeError] of [const { status, msg, progress, result } =
    statusResponse.data] on an answer without a [data] object. *)
Definition cannot_destructure (what : string) : string :=
  "Cannot destructure property 'status' of 'statusResponse.data' as it is "
  +:+ what +:+ ".".

(** What the collaborators answer during one run of a callback: the other
    DAOs, the TTS and Face2Face services, FFmpeg, and the process
    environment. *)
Record gateways := Gateways {
  development : bool;                                  (* NODE_ENV === 'development' *)
  modelDao_selectByID : value → option row;
  voiceDao_selectByID : value → option row;
  audio_uuid : string;                                 (* crypto.randomUUID() in makeAudio *)
  makeAudioApi : row → completion unit;
  task_uuid : string;                                  (* crypto.randomUUID() for the task code *)
  JSON_stringify : row → string;
  makeVideoApi : row → completion row;
  getVideoStatus : value → completion statusResponse;
  getVideoDuration : value → completion value
}.

(** ** services/voice.js *)

Module voiceService.

Definition makeAudio (g : gateways) (voiceId text : value) : js value :=
  let uuid := audio_uuid g in
  match voiceDao_selectByID g voiceId with
  | None => throw ("Voice not found: " +:+ to_string voiceId)
  | Some voice =>
      let audioParams : row :=
        {[ "speaker" := VStr uuid; "text" := text; "format" := VStr "wav";
           "reference_audio" := get voice "asr_format_audio_url";
           "reference_text" := get voice "reference_audio_text" ]} in
      try_catch
        (await (makeAudioApi g audioParams);;
         mret (VStr (uuid +:+ ".wav")))
        (λ error, throw ("TTS service error: " +:+ error))
  end.

Definition makeAudioForVideo (g : gateways) (voiceId text : value) : js value :=
  makeAudio g voiceId text.

End voiceService.

(** ** services/video.js *)

Module videoService.

Definition startVideoGeneration (videoId : value) : js value :=
  exec (videoDao.update {[ "id" := videoId; "status" := VStr "waiting" ]});;
  mret videoId.

Definition callFace2FaceAPI (g : gateways) (audioPath videoPath : value)
    : js (row * row) :=
  let uuid := task_uuid g in
  let param : row :=
    {[ "audio_url" := audioPath; "video_url" := videoPath;
       "code" := VStr uuid; "chaofen" := VNum 0;
       "watermark_switch" := VNum 0; "pn" := VNum 1 ]} in
  result ← await (makeVideoApi g param);
  mret (param, result).

Definition synthesizeVideo (g : gateways) (videoId : value) : js value :=
  try_catch
    (exec (videoDao.update
             {[ "id" := videoId; "file_path" := VNull;
                "status" := VStr "processing";
                "message" := VStr "Submitting task..." ]});;
     video ← query (videoDao.selectByID videoId);
     match video with
     | None => throw ("Video not found: " +:+ to_string videoId)
     | Some video =>
     match modelDao_selectByID g (get video "model_id") with
     | None => throw ("Model not found: " +:+ to_string (get video "model_id"))
     | Some model =>
         audioPath ←
           (if truthy (get video "audio_path")
            then mret (get video "audio_path")
            else
              let voiceId := js_or (get video "voice_id") (get model "voice_id") in
              match voiceDao_selectByID g voiceId with
              | None => throw ("Voice not found: " +:+ to_string voiceId)
              | Some voice =>
                  voiceService.makeAudioForVideo g (get voice "id")
                    (get video "text_content")
              end);
         response ←
           (if development g
            then mret ({[ "code" := VStr (task_uuid g) ]} : row,
                       {[ "code" := VNum 10000;
                          "msg" := VStr "Development mode - task submitted" ]} : row)
            else callFace2FaceAPI g audioPath (get model "video_path"));
         let param := response.1 in
         let result := response.2 in
         (if decide (get result "code" = VNum 10000)
          then
            exec (videoDao.update
                    {[ "id" := videoId; "file_path" := VNull;
                       "status" := VStr "pending";
                       "message" := js_or (get result "msg")
                                      (VStr "Task submitted successfully");
                       "audio_path" := audioPath;
                       "param" := VStr (JSON_stringify g param);
                       "code" := get param "code" ]})
          else
            exec (videoDao.update
                    {[ "id" := videoId; "file_path" := VNull;
                       "status" := VStr "failed";
                       "message" := js_or (get result "msg")
                                      (VStr "Task submission failed");
                       "audio_path" := audioPath;
                       "param" := VStr (JSON_stringify g param);
                       "code" := get param "code" ]}));;
         mret videoId
     end
     end)
    (λ error,
       exec (videoDao.updateStatus videoId "failed" (VStr error)
               (VNum 0) (VStr EmptyString));;
       throw error).

Definition processNextWaitingVideo : js unit :=
  video ← query (videoDao.findFirstByStatus "waiting");
  match video with
  | Some video => setImmediate (get video "id")
  | None => mret tt
  end.

Definition handleVideoCompletion (g : gateways) (video statusData : row)
    : js unit :=
  try_catch
    (let msg := get statusData "msg" in
     let progress := get statusData "progress" in
     let result := get statusData "result" in
     duration ←
       (if development g then mret (VNum 10)
        else await (getVideoDuration g result));
     exec (videoDao.update
             {[ "id" := get video "id"; "status" := VStr "completed";
                "message" := msg; "progress" := progress;
                "file_path" := result; "duration" := duration ]}))
    (λ error,
       exec (videoDao.updateStatus (get video "id") "failed"
               (VStr ("Completion handling failed: " +:+ error))
               (VNum 0) (VStr EmptyString))).

Definition processPendingVideos (g : gateways) : js (option row) :=
  video ← query (videoDao.findFirstByStatus "pending");
  match video with
  | None => processNextWaitingVideo;; mret None
  | Some video =>
      try_catch
        (statusResponse ← await (getVideoStatus g (get video "code"));
         (if decide (sr_code statusResponse ∈ [VNum 9999; VNum 10002; VNum 10003])
          then
            exec (videoDao.updateStatus (get video "id") "failed"
                    (sr_msg statusResponse) (VNum 0) (VStr EmptyString))
          else if decide (sr_code statusResponse = VNum 10000)
          then
            match sr_data statusResponse with
            | NoData => throw (cannot_destructure "undefined")
            | NullData => throw (cannot_destructure "null")
            | Data data =>
                let status := get data "status" in
                let msg := get data "msg" in
                (* a [progress] the answer lacks is [undefined]: the
                   default [progress = 0] of [updateStatus] applies *)
                let progress := default (VNum 0) (data !! "progress") in
                if decide (status = VNum 1)
                then exec (videoDao.updateStatus (get video "id") "pending"
                             msg progress (VStr EmptyString))
                else if decide (status = VNum 2)
                then handleVideoCompletion g video data
                else if decide (status = VNum 3)
                then exec (videoDao.updateStatus (get video "id") "failed"
                             msg (VNum 0) (VStr EmptyString))
                else mret tt
            end
          else mret tt);;
         mret (Some video))
        (λ error,
           exec (videoDao.updateStatus (get video "id") "failed"
                   (VStr ("Status check failed: " +:+ error))
                   (VNum 0) (VStr EmptyString));;
           mret (Some video))
  end.

End videoService.

(** ** services/task.js *)

Module taskService.

(** [getTaskStats()]: the number of rows in each status. *)
Definition getTaskStats (video : list row) : list (string * nat) :=
  (λ status, (status, length (videoDao.selectByStatus status video)))
    <$> [ "pending"; "processing"; "waiting"; "completed"; "failed"; "draft" ].

(** [waitingTasks.map((task, index) => ({...task, queuePosition: index + 1,
    totalInQueue: waitingTasks.length}))] *)
Definition getWaitingTasks (video : list row) : list row :=
  let waitingTasks := videoDao.selectByStatus "waiting" video in
  imap (λ index task,
          <["totalInQueue" := VNum (Z.of_nat (length waitingTasks))]>
            (<["queuePosition" := VNum (Z.of_nat index + 1)]> task))
       waitingTasks.

(** The object [processTaskQueue] resolves to. *)
Record queueResult := QueueResult {
  success : bool;
  processedVideo : value;
  error : option string
}.

Definition processTaskQueue (g : gateways) : js queueResult :=
  try_catch
    (processedVideo ← videoService.processPendingVideos g;
     match processedVideo with
     | None => videoService.processNextWaitingVideo
     | Some _ => mret tt
     end;;
     mret (QueueResult true
             (from_option (λ v, get v "id") VNull processedVideo) None))
    (λ error, mret (QueueResult false VNull (Some error))).

(** The [setInterval] callback of [startBackgroundProcessing]. *)
Definition intervalCallback (g : gateways) : js unit :=
  try_catch (processTaskQueue g;; mret tt) (λ error, mret tt).

Definition retryFailedTask (taskId : value) : js bool :=
  try_catch
    (video ← query (videoDao.selectByID taskId);
     match video with
     | None => throw ("Task not found: " +:+ to_string taskId)
     | Some video =>
         if decide (get video "status" ≠ VStr "failed")
         then throw ("Task is not in failed status: " +:+ to_string taskId)
         else
           exec (videoDao.update
                   {[ "id" := taskId; "status" := VStr "waiting";
                      "message" := VStr "Retrying task...";
                      "progress" := VNum 0 ]});;
           mret true
     end)
    (λ error, throw error).

Definition cancelTask (taskId : value) : js bool :=
  try_catch
    (video ← query (videoDao.selectByID taskId);
     match video with
     | None => throw ("Task not found: " +:+ to_string taskId)
     | Some video =>
         if decide (get video "status"
                      ∉ [VStr "waiting"; VStr "processing"; VStr "pending"])
         then throw ("Cannot cancel task in status: "
                       +:+ to_string (get video "status"))
         else
           exec (videoDao.update
                   {[ "id" := taskId; "status" := VStr "failed";
                      "message" := VStr "Task cancelled by user";
                      "progress" := VNum 0 ]});;
           mret true
     end)
    (λ error, throw error).

(** [stats.total = Object.values(stats).reduce((sum, count) => sum + count, 0)] *)
Definition total (stats : list (string * nat)) : nat :=
  foldl (λ sum entry, (sum + entry.2)%nat) 0%nat stats.

(** [getTaskDetails(taskId)]: the fields of the job, and for a waiting job
    its entry of [getWaitingTasks()], found by id. *)
Definition getTaskDetails (taskId : value) (video : list row) : option row :=
  match videoDao.selectByID taskId video with
  | None => None
  | Some v =>
      let result : row :=
        list_to_map
          ((λ key, (key, get v key))
             <$> [ "id"; "name"; "status"; "progress"; "message"; "created_at";
                   "model_id"; "voice_id"; "text_content"; "audio_path";
                   "file_path"; "duration" ]) in
      if decide (get v "status" = VStr "waiting")
      then
        match head (filter (λ t, get t "id" = taskId) (getWaitingTasks video)) with
        | Some queueInfo =>
            Some (<["totalInQueue" := get queueInfo "totalInQueue"]>
                    (<["queuePosition" := get queueInfo "queuePosition"]> result))
        | None => Some result
        end
      else Some result
  end.

(** [task => ({ k1: task.k1, ... })] *)
Definition pick (keys : list string) (task : row) : row :=
  list_to_map ((λ key, (key, get task key)) <$> keys).

(** The object [getQueueStatus()] returns: the three counts under [queue]
    and the three lists under [details]. *)
Record queueStatus := QueueStatus {
  queue : list (string * nat);
  pendingTasks : list row;
  waitingTasks : list row;
  processingTasks : list row
}.

Definition getQueueStatus (video : list row) : queueStatus :=
  let pending := videoDao.selectByStatus "pending" video in
  let waiting := getWaitingTasks video in
  let processing := videoDao.selectByStatus "processing" video in
  QueueStatus
    [ ("pending", length pending); ("waiting", length waiting);
      ("processing", length processing) ]
    (pick [ "id"; "name"; "progress"; "message" ] <$> pending)
    (pick [ "id"; "name"; "queuePosition"; "totalInQueue" ] <$> waiting)
    (pick [ "id"; "name"; "message" ] <$> processing).

End taskService.

(** ** routes/videos.js *)

Module videosRouter.

(** The names the module binds: what it imports ([express],
    [asyncHandler], [AppError], [logger], [config], [videoService],
    [audition], [fs], [path]) and its own [router].  No DAO is among
    them. *)
Definition bindings : list string :=
  [ "express"; "asyncHandler"; "AppError"; "logger"; "config";
    "videoService"; "audition"; "fs"; "path"; "router" ].

(** A statement that names [name]: a name the module does not bind is
    looked up in the global scope, where nothing defines it, and the
    statement throws a [ReferenceError], which [asyncHandler] passes to the
    error middleware.  An error is kept by its message. *)
Definition naming {A} (name : string) (statement : js A) : js A :=
  if decide (name ∈ bindings) then statement
  else throw (name +:+ " is not defined").

(** [POST /:id/generate]; an [AppError] is kept by its message. *)
Definition generate (id : value) : js unit :=
  video ← naming "videoDao" (query (videoDao.selectByID id));
  match video with
  | None => throw "Video not found"
  | Some video =>
      if decide (get video "status" = VStr "processing"
                 ∨ get video "status" = VStr "pending")
      then throw "Video is already being processed"
      else
        naming "videoDao"
          (exec (videoDao.update
                   {[ "id" := id; "status" := VStr "waiting";
                      "progress" := VNum 0 ]}));;
        setImmediate id
  end.

End videosRouter.

(** ** Files of a job: services/video.js *)

Section files.

(** [config.assetPath.model] and [config.assetPath.ttsProduct], and
    [path.join(dir, name)], which throws on a name that is not a string. *)
Variables (modelDir ttsProductDir : string).
Variable path_join : string → value → completion string.

(** The table and the paths that exist on disk. *)
Definition store : Type := list row * gset string.

(** [if (fs.existsSync(p)) fs.unlinkSync(p)] for [p = path.join(dir, name)],
    when [name] is truthy. *)
Definition unlinkIfPresent (dir : string) (name : value) (disk : gset string)
    : completion unit * gset string :=
  if truthy name
  then match path_join dir name with
       | Returned p =>
           (Returned tt, if decide (p ∈ disk) then disk ∖ {[ p ]} else disk)
       | Thrown e => (Thrown e, disk)
       | Awaiting => (Awaiting, disk)
       end
  else (Returned tt, disk).

(** [deleteVideo(videoId)]; its [catch] logs and rethrows. *)
Definition deleteVideo (videoId : value) (st : store) : completion bool * store :=
  match videoDao.selectByID videoId st.1 with
  | None => (Thrown ("Video not found: " +:+ to_string videoId), st)
  | Some video =>
      match unlinkIfPresent modelDir (get video "file_path") st.2 with
      | (Returned _, disk1) =>
          match unlinkIfPresent ttsProductDir (get video "audio_path") disk1 with
          | (Returned _, disk2) =>
              (Returned true, (videoDao.remove videoId st.1, disk2))
          | (Thrown e, disk2) => (Thrown e, (st.1, disk2))
          | (Awaiting, disk2) => (Awaiting, (st.1, disk2))
          end
      | (Thrown e, disk1) => (Thrown e, (st.1, disk1))
      | (Awaiting, disk1) => (Awaiting, (st.1, disk1))
      end
  end.

(** [exportVideo(videoId, outputPath)]: [fs.copyFileSync] creates the
    output path. *)
Definition exportVideo (videoId : value) (outputPath : string) (st : store)
    : completion bool * store :=
  match videoDao.selectByID videoId st.1 with
  | None => (Thrown ("Video not found: " +:+ to_string videoId), st)
  | Some video =>
      if truthy (get video "file_path")
      then match path_join modelDir (get video "file_path") with
           | Returned sourceFilePath =>
               if decide (sourceFilePath ∈ st.2)
               then (Returned true, (st.1, {[ outputPath ]} ∪ st.2))
               else (Thrown ("Video file not found: " +:+ sourceFilePath), st)
           | Thrown e => (Thrown e, st)
           | Awaiting => (Awaiting, st)
           end
      else (Thrown ("Video file not available: " +:+ to_string videoId), st)
  end.

(** [getVideoById(videoId)]: the row with its file path made absolute. *)
Definition getVideoById (videoId : value) (video : list row)
    : completion (option row) :=
  match videoDao.selectByID videoId video with
  | None => Returned None
  | Some v =>
      if truthy (get v "file_path")
      then match path_join modelDir (get v "file_path") with
           | Returned p => Returned (Some (<["file_path" := VStr p]> v))
           | Thrown e => Thrown e
           | Awaiting => Awaiting
           end
      else Returned (Some v)
  end.

End files.

(** ** The event loop *)

(** One queued [() => synthesizeVideo(videoId)] callback: nobody holds the
    promise it returns, so a rejection is an unhandled one. *)
Definition runImmediate (g : gateways) (videoId : value) (s : runtime) : runtime :=
  match videoService.synthesizeVideo g videoId s with
  | (Thrown e, s') =>
      Runtime (table s') (immediateQueue s') (unhandledRejections s' ++ [e])
  | (_, s') => s'
  end.

(** The check phase: the queued callbacks run in order; the [k]-th one meets
    the collaborators [gi k]. *)
Fixpoint runImmediates (gi : nat → gateways) (queue : list value) (s : runtime)
    : runtime :=
  match queue with
  | [] => s
  | videoId :: queue' =>
      runImmediates (λ k, gi (S k)) queue' (runImmediate (gi O) videoId s)
  end.

Definition drain (gi : nat → gateways) (s : runtime) : runtime :=
  runImmediates gi (immediateQueue s)
    (Runtime (table s) [] (unhandledRejections s)).

(** What happens to the server, one event at a time. *)
Inductive event :=
  | Tick (g : gateways) (gi : nat → gateways)   (* the setInterval callback *)
  | Cancel (taskId : value)                      (* POST /tasks/:id/cancel *)
  | Retry (taskId : value)                       (* POST /tasks/:id/retry *)
  | Queue (videoId : value).                     (* startVideoGeneration *)

Definition handle (e : event) (s : runtime) : runtime :=
  match e with
  | Tick g gi => drain gi (taskService.intervalCallback g s).2
  | Cancel taskId => (taskService.cancelTask taskId s).2
  | Retry taskId => (taskService.retryFailedTask taskId s).2
  | Queue videoId => (videoService.startVideoGeneration videoId s).2
  end.

Definition run (events : list event) (s : runtime) : runtime :=
  foldl (λ s e, handle e s) s events.

(** ** Calls in flight

    An [async] function runs until it awaits a call to another service; it
    goes on when the answer arrives, and whatever else was due in between
    has run by then.  The four places where the scheduler waits for another
    service, each with what the suspended function still holds. *)
Inductive continuation :=
  | AwaitTTS (videoId : value) (model : row) (uuid : string) (audioParams : row)
      (* synthesizeVideo, inside makeAudio: await makeAudioApi(audioParams) *)
  | AwaitSubmit (videoId audioPath : value) (param : row)
      (* synthesizeVideo, inside callFace2FaceAPI: await makeVideoApi(param) *)
  | AwaitStatus (video : row)
      (* processPendingVideos: await getVideoStatus(video.code) *)
  | AwaitDuration (video statusData : row).
      (* handleVideoCompletion: await getVideoDuration(resultPath) *)

(** The job a suspended function will write to when it goes on. *)
Definition owner (c : continuation) : value :=
  match c with
  | AwaitTTS videoId _ _ _ => videoId
  | AwaitSubmit videoId _ _ => videoId
  | AwaitStatus video => get video "id"
  | AwaitDuration video _ => get video "id"
  end.

Definition synthesis (c : continuation) : bool :=
  match c with
  | AwaitTTS _ _ _ _ | AwaitSubmit _ _ _ => true
  | _ => false
  end.

(** The [catch] of [synthesizeVideo], in a callback of [setImmediate]: the
    job is failed and the error is thrown again, to nobody. *)
Definition synthesisFailed (videoId : value) (error : string) (s : runtime)
    : runtime :=
  Runtime
    (videoDao.updateStatus videoId "failed" (VStr error) (VNum 0)
       (VStr EmptyString) (table s))
    (immediateQueue s) (unhandledRejections s ++ [error]).

(** [synthesizeVideo] from the answer of the render service on. *)
Definition recordSubmission (g : gateways) (videoId audioPath : value)
    (param result : row) (s : runtime) : runtime :=
  Runtime
    ((if decide (get result "code" = VNum 10000)
      then
        videoDao.update
          {[ "id" := videoId; "file_path" := VNull;
             "status" := VStr "pending";
             "message" := js_or (get result "msg")
                            (VStr "Task submitted successfully");
             "audio_path" := audioPath;
             "param" := VStr (JSON_stringify g param);
             "code" := get param "code" ]}
      else
        videoDao.update
          {[ "id" := videoId; "file_path" := VNull;
             "status" := VStr "failed";
             "message" := js_or (get result "msg")
                            (VStr "Task submission failed");
             "audio_path" := audioPath;
             "param" := VStr (JSON_stringify g param);
             "code" := get param "code" ]}) (table s))
    (immediateQueue s) (unhandledRejections s).

(** [synthesizeVideo] from the audio on: the mock answer in development
    mode, the call to the render service otherwise. *)
Definition submitAudio (g : gateways) (videoId audioPath : value) (model : row)
    (s : runtime) : runtime * list continuation :=
  if development g
  then (recordSubmission g videoId audioPath
          {[ "code" := VStr (task_uuid g) ]}
          {[ "code" := VNum 10000;
             "msg" := VStr "Development mode - task submitted" ]} s, [])
  else (s, [ AwaitSubmit videoId audioPath
               {[ "audio_url" := audioPath;
                  "video_url" := get model "video_path";
                  "code" := VStr (task_uuid g); "chaofen" := VNum 0;
                  "watermark_switch" := VNum 0; "pn" := VNum 1 ]} ]).

(** [synthesizeVideo(videoId)] up to its first call to another service. *)
Definition startSynthesis (g : gateways) (videoId : value) (s : runtime)
    : runtime * list continuation :=
  let s :=
    Runtime
      (videoDao.update
         {[ "id" := videoId; "file_path" := VNull;
            "status" := VStr "processing";
            "message" := VStr "Submitting task..." ]} (table s))
      (immediateQueue s) (unhandledRejections s) in
  match videoDao.selectByID videoId (table s) with
  | None =>
      (synthesisFailed videoId ("Video not found: " +:+ to_string videoId) s, [])
  | Some video =>
  match modelDao_selectByID g (get video "model_id") with
  | None =>
      (synthesisFailed videoId
         ("Model not found: " +:+ to_string (get video "model_id")) s, [])
  | Some model =>
      if truthy (get video "audio_path")
      then submitAudio g videoId (get video "audio_path") model s
      else
        let voiceId := js_or (get video "voice_id") (get model "voice_id") in
        match voiceDao_selectByID g voiceId with
        | None =>
            (synthesisFailed videoId
               ("Voice not found: " +:+ to_string voiceId) s, [])
        | Some voice =>
            (* makeAudioForVideo({ voiceId: voice.id, text }) *)
            match voiceDao_selectByID g (get voice "id") with
            | None =>
                (synthesisFailed videoId
                   ("Voice not found: " +:+ to_string (get voice "id")) s, [])
            | Some voice =>
                (s, [ AwaitTTS videoId model (audio_uuid g)
                        {[ "speaker" := VStr (audio_uuid g);
                           "text" := get video "text_content";
                           "format" := VStr "wav";
                           "reference_audio" := get voice "asr_format_audio_url";
                           "reference_text" := get voice "reference_audio_text" ]} ])
            end
        end
  end
  end.

(** [handleVideoCompletion] from the duration on. *)
Definition recordCompletion (video statusData : row) (duration : value)
    (s : runtime) : runtime :=
  Runtime
    (videoDao.update
       {[ "id" := get video "id"; "status" := VStr "completed";
          "message" := get statusData "msg";
          "progress" := get statusData "progress";
          "file_path" := get statusData "result";
          "duration" := duration ]} (table s))
    (immediateQueue s) (unhandledRejections s).

Definition pollFailed (video : row) (message : value) (s : runtime) : runtime :=
  Runtime
    (videoDao.updateStatus (get video "id") "failed" message (VNum 0)
       (VStr EmptyString) (table s))
    (immediateQueue s) (unhandledRejections s).

(** [processPendingVideos] from the answer of the render service on. *)
Definition recordStatus (g : gateways) (video : row) (answer : statusResponse)
    (s : runtime) : runtime * list continuation :=
  if decide (sr_code answer ∈ [VNum 9999; VNum 10002; VNum 10003])
  then (pollFailed video (sr_msg answer) s, [])
  else if decide (sr_code answer = VNum 10000)
  then
    match sr_data answer with
    | NoData =>
        (pollFailed video
           (VStr ("Status check failed: " +:+ cannot_destructure "undefined")) s,
         [])
    | NullData =>
        (pollFailed video
           (VStr ("Status check failed: " +:+ cannot_destructure "null")) s, [])
    | Data data =>
        if decide (get data "status" = VNum 1)
        then
          (Runtime
             (videoDao.updateStatus (get video "id") "pending" (get data "msg")
                (default (VNum 0) (data !! "progress")) (VStr EmptyString)
                (table s))
             (immediateQueue s) (unhandledRejections s), [])
        else if decide (get data "status" = VNum 2)
        then
          if development g
          then (recordCompletion video data (VNum 10) s, [])
          else (s, [ AwaitDuration video data ])
        else if decide (get data "status" = VNum 3)
        then (pollFailed video (get data "msg") s, [])
        else (s, [])
    end
  else (s, []).

(** A suspended function goes on with the answer the collaborators [g]
    give to its call; while there is none it stays suspended. *)
Definition resume (g : gateways) (c : continuation) (s : runtime)
    : runtime * list continuation :=
  match c with
  | AwaitTTS videoId model uuid audioParams =>
      match makeAudioApi g audioParams with
      | Returned _ => submitAudio g videoId (VStr (uuid +:+ ".wav")) model s
      | Thrown e => (synthesisFailed videoId ("TTS service error: " +:+ e) s, [])
      | Awaiting => (s, [c])
      end
  | AwaitSubmit videoId audioPath param =>
      match makeVideoApi g param with
      | Returned result => (recordSubmission g videoId audioPath param result s, [])
      | Thrown e => (synthesisFailed videoId e s, [])
      | Awaiting => (s, [c])
      end
  | AwaitStatus video =>
      match getVideoStatus g (get video "code") with
      | Returned answer => recordStatus g video answer s
      | Thrown e =>
          (pollFailed video (VStr ("Status check failed: " +:+ e)) s, [])
      | Awaiting => (s, [c])
      end
  | AwaitDuration video statusData =>
      match getVideoDuration g (get statusData "result") with
      | Returned duration => (recordCompletion video statusData duration s, [])
      | Thrown e =>
          (pollFailed video (VStr ("Completion handling failed: " +:+ e)) s, [])
      | Awaiting => (s, [c])
      end
  end.

(** [processTaskQueue()] up to its first call to another service: the poll
    of the first pending job; with none pending,
    [processNextWaitingVideo()] in [processPendingVideos] and once more in
    [processTaskQueue]. *)
Definition startTick (s : runtime) : runtime * list continuation :=
  match videoDao.findFirstByStatus "pending" (table s) with
  | Some video => (s, [ AwaitStatus video ])
  | None =>
      (((videoService.processNextWaitingVideo;;
         videoService.processNextWaitingVideo) s).2, [])
  end.

(** The server between two turns of the event loop: the state the handlers
    share, and the calls to other services that are outstanding. *)
Record server := Server {
  memory : runtime;
  outstanding : list continuation
}.

(** One turn of the event loop. *)
Inductive action :=
  | Timer                              (* the setInterval callback fires *)
  | Immediate (g : gateways)           (* the next setImmediate callback runs *)
  | Answer (k : nat) (g : gateways)    (* the k-th outstanding call is answered *)
  | CancelRequest (id : value)         (* POST /tasks/:id/cancel *)
  | RetryRequest (id : value)          (* POST /tasks/:id/retry *)
  | GenerateRequest (id : value)       (* POST /videos/:id/generate *)
  | DeleteRequest (id : value) (modelDir ttsProductDir : string)
      (path_join : string → value → completion string) (disk : gset string)
      (* DELETE /videos/:id, with the asset directories and the files there
         are when it arrives *)
  | StartGeneration (videoId : value). (* startVideoGeneration(videoId) *)

Definition turn (a : action) (sv : server) : server :=
  match a with
  | Timer =>
      let '(s, started) := startTick (memory sv) in
      Server s (outstanding sv ++ started)
  | Immediate g =>
      match immediateQueue (memory sv) with
      | [] => sv
      | videoId :: queue =>
          let '(s, started) :=
            startSynthesis g videoId
              (Runtime (table (memory sv)) queue
                 (unhandledRejections (memory sv))) in
          Server s (outstanding sv ++ started)
      end
  | Answer k g =>
      match outstanding sv !! k with
      | None => sv
      | Some c =>
          let '(s, rest) := resume g c (memory sv) in
          Server s (take k (outstanding sv) ++ rest ++ drop (S k) (outstanding sv))
      end
  | CancelRequest id => Server (taskService.cancelTask id (memory sv)).2 (outstanding sv)
  | RetryRequest id =>
      Server (taskService.retryFailedTask id (memory sv)).2 (outstanding sv)
  | GenerateRequest id =>
      Server (videosRouter.generate id (memory sv)).2 (outstanding sv)
  | DeleteRequest id modelDir ttsProductDir path_join disk =>
      let '(_, (video, _)) :=
        deleteVideo modelDir ttsProductDir path_join id
          (table (memory sv), disk) in
      Server
        (Runtime video (immediateQueue (memory sv))
           (unhandledRejections (memory sv)))
        (outstanding sv)
  | StartGeneration videoId =>
      Server (videoService.startVideoGeneration videoId (memory sv)).2
        (outstanding sv)
  end.

Definition turns (actions : list action) (sv : server) : server :=
  foldl (λ sv a, turn a sv) sv actions.

(** Nothing is due: no callback is queued and no call is outstanding. *)
Definition idle (sv : server) : Prop :=
  immediateQueue (memory sv) = [] ∧ outstanding sv = [].

(** What the event loop does of its own accord, as opposed to a timer
    firing or a request coming in. *)
Definition internal (a : action) : bool :=
  match a with
  | Immediate _ | Answer _ _ => true
  | _ => false
  end.


(** ** background/index.js and the timer of services/task.js *)

Module background.

(** The module variable [backgroundInterval], the interval timers that are
    set and not cleared, the number of timer objects handed out so far, and
    the number of [setImmediate(() => processTaskQueue())] calls. *)
Record timers := Timers {
  backgroundInterval : option nat;
  activeIntervals : list nat;
  handedOut : nat;
  immediateTicks : nat
}.

Definition initial : timers := Timers None [] 0 0.

(** [startBackgroundProcessing(intervalMs)]: [setInterval] hands out a new
    timer object; the queue is processed once at once. *)
Definition startBackgroundProcessing (t : timers) : nat * timers :=
  let intervalId := handedOut t in
  (intervalId,
   Timers (backgroundInterval t) (activeIntervals t ++ [intervalId])
     (S (handedOut t)) (S (immediateTicks t))).

(** [stopBackgroundProcessing(intervalId)]: [clearInterval] when the id is
    set. *)
Definition stopBackgroundProcessing (intervalId : option nat) (t : timers) : timers :=
  match intervalId with
  | Some id =>
      Timers (backgroundInterval t) (filter (λ x, x ≠ id) (activeIntervals t))
        (handedOut t) (immediateTicks t)
  | None => t
  end.

Definition initBackgroundProcessing (t : timers) : timers :=
  match backgroundInterval t with
  | Some _ => t
  | None =>
      let '(intervalId, t') := startBackgroundProcessing t in
      Timers (Some intervalId) (activeIntervals t') (handedOut t') (immediateTicks t')
  end.

Definition stopBackground (t : timers) : timers :=
  match backgroundInterval t with
  | Some id =>
      let t' := stopBackgroundProcessing (Some id) t in
      Timers None (activeIntervals t') (handedOut t') (immediateTicks t')
  | None => t
  end.

(** [getBackgroundStatus().running] *)
Definition running (t : timers) : bool := bool_decide (backgroundInterval t ≠ None).

Inductive command := Init | Stop.

Definition step (t : timers) (c : command) : timers :=
  match c with
  | Init => initBackgroundProcessing t
  | Stop => stopBackground t
  end.

End background.

(** ** config/env-validation.js *)

Module envValidation.

Definition defaults : list (string * string) :=
  [ ("NODE_ENV", "development"); ("PORT", "3000"); ("LOG_LEVEL", "info");
    ("PROCESSING_INTERVAL", "2000"); ("MAX_RETRIES", "3");
    ("QUEUE_POLLING_INTERVAL", "5000") ].

(** [!process.env[key]]: the variable is unset or empty. *)
Definition unset (env : gmap string string) (key : string) : bool :=
  match env !! key with
  | None => true
  | Some v => String.eqb v EmptyString
  end.

(** [setupDefaults()] *)
Definition setupDefaults (env : gmap string string) : gmap string string :=
  foldl (λ env entry, if unset env entry.1 then <[entry.1 := entry.2]> env else env)
    env defaults.

End envValidation.
(** * The properties as the specification words them, and sample states *)

(** A stored job, every column present. *)
Definition job (id : Z) (status : string) (created_at : Z)
    (audio_path code message : value) : row :=
  list_to_map
    [ ("id", VNum id); ("name", VStr "clip"); ("status", VStr status);
      ("message", message); ("progress", VNum 0); ("file_path", VNull);
      ("audio_path", audio_path); ("param", VNull); ("code", code);
      ("model_id", VNum 1); ("voice_id", VNum 1);
      ("text_content", VStr "Hello"); ("duration", VNull);
      ("created_at", VNum created_at) ].

(** The id of a request: an integer, or the text of one in decimal digits,
    as a request path carries it ([req.params.id]). *)
Definition integer_id (id : value) : Prop := ∃ n, key_of id = VNum n.

(** The fields a user action on the queue assigns. *)
Definition queue_fields : list string := [ "status"; "message"; "progress" ].

(** Retry as the specification words it: the remote handle and the audio
    reference are cleared, progress is 0 and the job waits. *)
Definition retry_clears_handle (taskId : value) (s : runtime) : Prop :=
  ∀ video,
    videoDao.selectByID taskId (table s) = Some video →
    get video "status" = VStr "failed" →
    ∃ s' video',
      taskService.retryFailedTask taskId s = (Returned true, s')
      ∧ videoDao.selectByID taskId (table s') = Some video'
      ∧ get video' "code" = VNull
      ∧ get video' "audio_path" = VNull
      ∧ get video' "progress" = VNum 0
      ∧ get video' "status" = VStr "waiting".

(** A job that failed after its submission: it carries its audio file and
    the task code it was submitted under. *)
Definition failed_after_submit : runtime :=
  Runtime [ job 1 "failed" 100 (VStr "a1.wav") (VStr "h1") (VStr "quota exceeded") ]
    [] [].

Definition draft_job : runtime :=
  Runtime [ job 1 "draft" 100 VNull VNull VNull ] [] [].

Definition completed_job : runtime :=
  Runtime [ job 1 "completed" 100 (VStr "a1.wav") (VStr "h1") (VStr "done") ] [] [].

(** The object [callFace2FaceAPI] posts to the render service. *)
Definition submitted_param (g : gateways) (audioPath : value) (model : row) : row :=
  {[ "audio_url" := audioPath; "video_url" := get model "video_path";
     "code" := VStr (task_uuid g); "chaofen" := VNum 0;
     "watermark_switch" := VNum 0; "pn" := VNum 1 ]}.

(** The object [makeAudio] posts to the TTS service. *)
Definition audio_params (g : gateways) (voice : row) (text : value) : row :=
  {[ "speaker" := VStr (audio_uuid g); "text" := text; "format" := VStr "wav";
     "reference_audio" := get voice "asr_format_audio_url";
     "reference_text" := get voice "reference_audio_text" ]}.

(** The job has its audio at [audioPath]: it was supplied with the job, or
    the voice resolves and the TTS service answers. *)
Definition audio_ready (g : gateways) (video model : row) (audioPath : value) : Prop :=
  (truthy (get video "audio_path") = true ∧ audioPath = get video "audio_path")
  ∨ (truthy (get video "audio_path") = false
     ∧ ∃ voice voice',
         voiceDao_selectByID g (js_or (get video "voice_id") (get model "voice_id"))
         = Some voice
         ∧ voiceDao_selectByID g (get voice "id") = Some voice'
         ∧ makeAudioApi g (audio_params g voice' (get video "text_content"))
           = Returned tt
         ∧ audioPath = VStr (audio_uuid g +:+ ".wav")).

(** A rejected submission as the specification words it: the job is failed
    with the remote message and has no remote handle. *)
Definition rejected_without_handle (g : gateways) (videoId : value) (s : runtime)
    (message : value) : Prop :=
  ∃ s' video',
    videoService.synthesizeVideo g videoId s = (Returned videoId, s')
    ∧ videoDao.selectByID videoId (table s') = Some video'
    ∧ get video' "status" = VStr "failed"
    ∧ get video' "message" = message
    ∧ get video' "code" = VNull.

(** Collaborators in production mode: model 1 and voice 1 exist, the TTS
    service answers, the render service answers [submit] and [poll] as
    given, and FFmpeg measures [duration]. *)
Definition production (submit : completion row)
    (poll : completion statusResponse) (duration : completion value)
    (tts : completion unit) : gateways :=
  Gateways false
    (λ _, Some {[ "id" := VNum 1; "video_path" := VStr "m1.mp4";
                  "voice_id" := VNum 1 ]})
    (λ _, Some {[ "id" := VNum 1; "asr_format_audio_url" := VStr "v1.wav";
                  "reference_audio_text" := VStr "hi" ]})
    "a1" (λ _, tts) "h1" (λ _, "param")
    (λ _, submit) (λ _, poll) (λ _, duration).

Definition running : statusResponse :=
  StatusResponse (VNum 10000) (VStr "ok")
    (Data {[ "status" := VNum 1; "msg" := VStr "rendering";
             "progress" := VNum 40 ]}).

Definition accepted : row := {[ "code" := VNum 10000; "msg" := VStr "submitted" ]}.

Definition quota_exceeded : gateways :=
  production (Returned {[ "code" := VNum 10001; "msg" := VStr "quota exceeded" ]})
    (Returned running) (Returned (VNum 12)) (Returned tt).

Definition waiting_with_audio : runtime :=
  Runtime [ job 1 "waiting" 100 (VStr "a1.wav") VNull VNull ] [] [].

Definition waiting_without_audio : runtime :=
  Runtime [ job 1 "waiting" 100 VNull VNull VNull ] [] [].

(** The ids are the primary key of the table. *)
Definition primary_key (video : list row) : Prop :=
  NoDup ((λ r, key_of (get r "id")) <$> video).

(** What the render service and the media probe report for a pending job,
    in the terms of the poll contract: still running, succeeded with a
    measured result, failed with a message, or nothing that the contract
    names (an answer outside it, or no answer yet). *)
Inductive remote_state :=
  | StillRunning (message progress : value)
  | Succeeded (message progress result duration : value)
  | Failed (message : value)
  | Unanswered.

Definition probe_state (g : gateways) (data : row) : remote_state :=
  let done := Succeeded (get data "msg") (get data "progress") (get data "result") in
  if development g then done (VNum 10)
  else match getVideoDuration g (get data "result") with
       | Returned duration => done duration
       | Thrown e => Failed (VStr ("Completion handling failed: " +:+ e))
       | Awaiting => Unanswered
       end.

Definition remote_state_of (g : gateways) (video : row) : remote_state :=
  match getVideoStatus g (get video "code") with
  | Awaiting => Unanswered
  | Thrown e => Failed (VStr ("Status check failed: " +:+ e))
  | Returned answer =>
      if decide (sr_code answer ∈ [VNum 9999; VNum 10002; VNum 10003])
      then Failed (sr_msg answer)
      else if decide (sr_code answer = VNum 10000)
      then
        match sr_data answer with
        | NoData =>
            Failed (VStr ("Status check failed: " +:+ cannot_destructure "undefined"))
        | NullData =>
            Failed (VStr ("Status check failed: " +:+ cannot_destructure "null"))
        | Data data =>
            if decide (get data "status" = VNum 1)
            then StillRunning (get data "msg")
                   (default (VNum 0) (data !! "progress"))
            else if decide (get data "status" = VNum 2) then probe_state g data
            else if decide (get data "status" = VNum 3) then Failed (get data "msg")
            else Unanswered
        end
      else Unanswered
  end.

(** The message that comes with an answer: at its top, or in its data. *)
Definition answered_message (answer : statusResponse) (message : value) : Prop :=
  message = sr_msg answer
  ∨ ∃ data, sr_data answer = Data data ∧ message = get data "msg".

(** A poll tick as the specification words it: the pending job is left
    pending with the progress and message of the answer, or completed, or
    failed with the message of the answer. *)
Definition poll_yields_one_of_three (g : gateways) (s : runtime) : Prop :=
  ∀ video answer,
    videoDao.findFirstByStatus "pending" (table s) = Some video →
    getVideoStatus g (get video "code") = Returned answer →
    ∃ c s' video',
      videoService.processPendingVideos g s = (c, s')
      ∧ videoDao.selectByID (get video "id") (table s') = Some video'
      ∧ ((get video' "status" = VStr "pending"
          ∧ answered_message answer (get video' "message"))
         ∨ get video' "status" = VStr "completed"
         ∨ get video' "status" = VStr "failed").

(** The render service no longer knows the task. *)
Definition task_unknown : gateways :=
  production (Returned accepted)
    (Returned (StatusResponse (VNum 10004) (VStr "task does not exist")
                 (Data {[ "msg" := VStr "task does not exist" ]})))
    (Returned (VNum 12)) (Returned tt).

Definition pending_job : runtime :=
  Runtime [ job 1 "pending" 100 (VStr "a1.wav") (VStr "h1") (VStr "submitted") ]
    [] [].

(** What a reported state means for the stored job [video'] that was
    [video] before the poll. *)
Definition reflects (state : remote_state) (video video' : row) : Prop :=
  match state with
  | StillRunning message progress =>
      get video' "status" = VStr "pending"
      ∧ get video' "message" = message
      ∧ get video' "progress" = progress
  | Succeeded message progress result duration =>
      get video' "status" = VStr "completed"
      ∧ get video' "file_path" = result
      ∧ get video' "duration" = duration
      ∧ get video' "message" = message
      ∧ get video' "progress" = progress
  | Failed message =>
      get video' "status" = VStr "failed"
      ∧ get video' "message" = message
      ∧ get video' "progress" = VNum 0
  | Unanswered => video' = video
  end.

(** The TTS service is unreachable. *)
Definition tts_down : gateways :=
  production (Returned accepted) (Returned running) (Returned (VNum 12))
    (Thrown "connect ECONNREFUSED").

(** [created_at] as a number of milliseconds. *)
Definition created_at (r : row) : Z :=
  match get r "created_at" with VNum t => t | _ => 0%Z end.

(** The number of waiting jobs created strictly before [task]. *)
Definition earlier_waiting (video : list row) (task : row) : nat :=
  length (filter (λ r, (created_at r < created_at task)%Z)
            (videoDao.selectByStatus "waiting" video)).

(** The queue position as the specification words it. *)
Definition position_counts_earlier (video : list row) : Prop :=
  ∀ index task,
    taskService.getWaitingTasks video !! index = Some task →
    get task "queuePosition" = VNum (1 + Z.of_nat (earlier_waiting video task)).

(** Two jobs created within the same millisecond, both waiting. *)
Definition same_millisecond : list row :=
  [ job 1 "waiting" 100 VNull VNull VNull; job 2 "waiting" 100 VNull VNull VNull ].

(** [findFirstByStatus] as the specification words it: the waiting job it
    returns is the earliest created. *)
Definition first_is_earliest (video : list row) : Prop :=
  ∀ first,
    videoDao.findFirstByStatus "waiting" video = Some first →
    ∀ r, r ∈ videoDao.selectByStatus "waiting" video →
         (created_at first ≤ created_at r)%Z.

(** Two jobs are inserted and queued; the wall clock was set back between
    the two [Date.now()] readings. *)
Definition clock_set_back : runtime :=
  let draft (name : string) : row :=
    {[ "name" := VStr name; "model_id" := VNum 1; "status" := VStr "draft";
       "text_content" := VStr "Hello"; "voice_id" := VNum 1 ]} in
  let first := (videoDao.insert (draft "first") 200 []).1 in
  let second := (videoDao.insert (draft "second") 100 first).1 in
  run [ Queue (VNum 1); Queue (VNum 2) ] (Runtime second [] []).

(** [created_at] never decreases, or always increases, along the waiting
    rows in table order. *)
Definition chronological (video : list row) : Prop :=
  StronglySorted (λ r1 r2, (created_at r1 ≤ created_at r2)%Z)
    (videoDao.selectByStatus "waiting" video).

Definition strictly_chronological (video : list row) : Prop :=
  StronglySorted (λ r1 r2, (created_at r1 < created_at r2)%Z)
    (videoDao.selectByStatus "waiting" video).

(** The jobs that occupy the render slot. *)
Definition in_flight (video : list row) : nat :=
  length (videoDao.selectByStatus "processing" video)
  + length (videoDao.selectByStatus "pending" video).

(** Single flight as the specification words it: whatever the turns of
    the event loop, at most one job is in flight. *)
Definition single_flight (actions : list action) (sv : server) : Prop :=
  (in_flight (table (memory (turns actions sv))) ≤ 1)%nat.

(** The TTS service has not answered yet. *)
Definition tts_slow : gateways :=
  production (Returned accepted) (Returned running) (Returned (VNum 12)) Awaiting.

Definition all_well : gateways :=
  production (Returned accepted) (Returned running) (Returned (VNum 12))
    (Returned tt).

(** Two waiting jobs without audio, created one after the other. *)
Definition two_waiting : list row :=
  [ job 1 "waiting" 100 VNull VNull VNull; job 2 "waiting" 200 VNull VNull VNull ].

(** The timer fires and both callbacks it queued for the first job start
    and wait for the TTS service; the timer fires again before the TTS
    service has answered. *)
Definition ticks_during_tts : list action :=
  [ Timer; Immediate all_well; Immediate all_well;
    Timer; Immediate all_well; Immediate all_well ].

(** A run in which the timer fires, and a request is handled, only when
    nothing is due: every callback queued before has run, and every call
    to another service made before has been answered. *)
Fixpoint sequential (actions : list action) (sv : server) : Prop :=
  match actions with
  | [] => True
  | a :: actions =>
      (internal a = true ∨ idle sv) ∧ sequential actions (turn a sv)
  end.

(** Where a sequential run may start: unique ids, no job in processing, at
    most one pending, nothing due. *)
Definition quiescent (sv : server) : Prop :=
  primary_key (table (memory sv))
  ∧ videoDao.selectByStatus "processing" (table (memory sv)) = []
  ∧ (length (videoDao.selectByStatus "pending" (table (memory sv))) ≤ 1)%nat
  ∧ idle sv.

(** The render service reports that the task is done, with its result. *)
Definition rendered : statusResponse :=
  StatusResponse (VNum 10000) (VStr "ok")
    (Data {[ "status" := VNum 2; "msg" := VStr "done"; "progress" := VNum 100;
             "result" := VStr "r1.mp4" ]}).

Definition render_done : gateways :=
  production (Returned accepted) (Returned rendered) (Returned (VNum 12))
    (Returned tt).

(** [path.join] on two plain names, and a completed job whose result file
    is on disk. *)
Definition join_names (dir : string) (name : value) : completion string :=
  match name with
  | VStr n => Returned (dir +:+ "/" +:+ n)
  | _ => Thrown "The path argument must be of type string"
  end.

Definition finished_job : row :=
  <["file_path" := VStr "r1.mp4"]>
    (job 1 "completed" 100 (VStr "a1.wav") (VStr "h1") (VStr "done")).

Definition finished_disk : gset string :=
  {[ "model/r1.mp4"; "tts/a1.wav"; "model/other.mp4" ]}.

(** Three jobs, in the order they were created: pending, waiting, waiting. *)
Definition three_jobs : list row :=
  [ job 1 "pending" 100 (VStr "a1.wav") (VStr "h1") (VStr "submitted");
    job 2 "waiting" 200 VNull VNull VNull;
    job 3 "waiting" 300 VNull VNull VNull ].

(** A sequential run on them: the pending job is reported done and
    measured; the next tick starts the first waiting job, both callbacks
    get their audio and their submission is accepted; the user cancels
    that job and deletes the finished one; the next tick starts the last
    job in the same way, and the tick after that polls it. *)
Definition busy_day : list action :=
  [ Timer; Answer 0 render_done; Answer 0 render_done;
    Timer; Immediate all_well; Immediate all_well;
    Answer 0 all_well; Answer 1 all_well; Answer 0 all_well; Answer 0 all_well;
    CancelRequest (VStr "2");
    DeleteRequest (VStr "1") "model" "tts" join_names finished_disk;
    Timer; Immediate all_well; Immediate all_well;
    Answer 1 all_well; Answer 0 all_well; Answer 0 all_well; Answer 0 all_well;
    Timer; Answer 0 all_well ].

(** A suspended function and whatever it suspends on next, gone on with as
    far as the collaborators [g] answer. *)
Definition settle (g : gateways) (started : runtime * list continuation)
    : runtime :=
  match started.2 with
  | [ c ] =>
      match resume g c started.1 with
      | (s, [ c' ]) => (resume g c' s).1
      | (s, _) => s
      end
  | _ => started.1
  end.

(** A row that occupies the render slot. *)
Definition occupies (r : row) : Prop :=
  get r "status" = VStr "processing" ∨ get r "status" = VStr "pending".

(** What a sequential run keeps: the job [j] is the only one that occupies
    the slot, that a queued callback will start or that a suspended
    function will write to; and a job is in processing only while its
    synthesis is queued or suspended. *)
Definition single_handed (j : value) (sv : server) : Prop :=
  primary_key (table (memory sv))
  ∧ Forall (λ r, occupies r → key_of (get r "id") = key_of j)
      (table (memory sv))
  ∧ Forall (λ c, key_of (owner c) = key_of j) (outstanding sv)
  ∧ Forall (λ q, key_of q = key_of j) (immediateQueue (memory sv))
  ∧ (Exists (λ r, get r "status" = VStr "processing") (table (memory sv)) →
     immediateQueue (memory sv) ≠ []
     ∨ Exists (λ c, synthesis c = true) (outstanding sv)).

(** [table'] is [table] with only rows of the given id changed. *)
Definition same_elsewhere (id : value) (table table' : list row) : Prop :=
  Forall2 (λ r r', get r' "id" = get r "id"
                   ∧ (key_of (get r "id") ≠ key_of id → r' = r))
    table table'.

(** ... and every row of that id is now in one of the given statuses. *)
Definition writes (id : value) (statuses : list string)
    (table table' : list row) : Prop :=
  same_elsewhere id table table'
  ∧ Forall (λ r', key_of (get r' "id") = key_of id →
                  ∃ status, status ∈ statuses ∧ get r' "status" = VStr status)
      table'.
(** * Properties *)

(** ** Reading rows and patched rows *)

Section dao_facts.
Implicit Types (r video patch : row) (tbl : list row) (id : value).

Lemma get_union patch r key :
  get (patch ∪ r) key = from_option (λ v, v) (get r key) (patch !! key).
Proof.
  unfold get. rewrite lookup_union.
  destruct (patch !! key), (r !! key); reflexivity.
Qed.

Lemma lookup_union_unset patch r key :
  patch !! key = None → (patch ∪ r) !! key = r !! key.
Proof. intros H. rewrite lookup_union, H. by destruct (r !! key). Qed.

(** An assignment never rewrites the key it selects on. *)
Lemma get_id_assigned patch r : get (delete "id" patch ∪ r) "id" = get r "id".
Proof. rewrite get_union, lookup_delete_eq. reflexivity. Qed.

Lemma head_filter_fmap {A} (P : A → Prop) `{∀ x, Decision (P x)}
    (f : A → A) (l : list A) :
  (∀ x, P (f x) ↔ P x) →
  head (filter P (f <$> l)) = f <$> head (filter P l).
Proof.
  intros Hf. induction l as [|x l IH]; [reflexivity|].
  rewrite fmap_cons, !filter_cons.
  destruct (decide (P (f x))) as [Hy|Hn], (decide (P x)) as [Hx|Hx];
    try reflexivity; try assumption.
  - exfalso. apply Hx, Hf, Hy.
  - exfalso. apply Hn, Hf, Hx.
Qed.

Lemma selectByID_update patch tbl :
  videoDao.selectByID (get patch "id") (videoDao.update patch tbl)
  = (λ r, delete "id" patch ∪ r) <$> videoDao.selectByID (get patch "id") tbl.
Proof.
  unfold videoDao.selectByID, videoDao.update.
  rewrite head_filter_fmap.
  - destruct (filter _ tbl) as [|r l] eqn:E; [reflexivity|]. simpl.
    assert (r ∈ filter (λ r, key_of (get r "id") = key_of (get patch "id")) tbl)
      as Hr by (rewrite E; left).
    apply list_elem_of_filter in Hr as [Hr _].
    by rewrite decide_True.
  - intros r. case_decide; [|reflexivity]. by rewrite get_id_assigned.
Qed.

Lemma selectByID_update_other patch tbl id :
  key_of id ≠ key_of (get patch "id") →
  videoDao.selectByID id (videoDao.update patch tbl) = videoDao.selectByID id tbl.
Proof.
  intros Hne. unfold videoDao.selectByID, videoDao.update.
  rewrite head_filter_fmap.
  - destruct (filter _ tbl) as [|r l] eqn:E; [reflexivity|]. simpl.
    assert (r ∈ filter (λ r, key_of (get r "id") = key_of id) tbl) as Hr
      by (rewrite E; left).
    apply list_elem_of_filter in Hr as [Hr _].
    rewrite decide_False; [reflexivity | congruence].
  - intros r. case_decide; [|reflexivity]. by rewrite get_id_assigned.
Qed.

Lemma selectByID_found id tbl video :
  videoDao.selectByID id tbl = Some video →
  video ∈ tbl ∧ key_of (get video "id") = key_of id.
Proof.
  unfold videoDao.selectByID. intros H.
  destruct (filter _ tbl) as [|r l] eqn:E; [discriminate|].
  injection H as ->.
  assert (video ∈ filter (λ r, key_of (get r "id") = key_of id) tbl) as Hr
    by (rewrite E; left).
  apply list_elem_of_filter in Hr as [? ?]. by split.
Qed.

(** A number is its own key, and so is the key of anything. *)
Lemma key_of_number n : key_of (VNum n) = VNum n.
Proof. reflexivity. Qed.

Lemma key_of_idemp id : key_of (key_of id) = key_of id.
Proof.
  destruct id as [|n|text]; try reflexivity.
  simpl. destruct (NilZero.int_of_string text) eqn:Hdigits; [reflexivity|].
  simpl. by rewrite Hdigits.
Qed.

End dao_facts.

(** Runs the monadic glue of a service function. *)
Ltac js_step :=
  unfold try_catch, mbind, js_bind, query, exec, throw, await, mret, js_ret,
    setImmediate; simpl.

(** Membership in, and absence from, an explicit list. *)
Ltac listed := apply list_elem_of_In; vm_compute; auto 10.
Ltac not_listed :=
  let Hin := fresh in
  intros Hin; apply list_elem_of_In in Hin; simpl in Hin;
  intuition discriminate.

(** A key the patch names reads as the patch has it. *)
Ltac assigned := apply lookup_union_Some_l; reflexivity.

(** A decidable closed proposition, by evaluation. *)
Ltac decided := refine (bool_decide_unpack _ _); vm_compute; exact I.

(** A key the patch does not name, [Hkey] excluding the keys it names. *)
Ltac unassigned Hkey :=
  lazymatch goal with
  | |- delete "id" _ !! ?key = None =>
      destruct (decide (key = "id")) as [->|?]; [apply lookup_delete_eq|];
      rewrite lookup_delete_ne by done;
      repeat (rewrite lookup_insert_ne
                by first [congruence | intros <-; apply Hkey; listed]);
      apply lookup_singleton_ne;
      first [congruence | intros <-; apply Hkey; listed]
  end.

(** ** User actions on one job: cancel, retry, enqueue *)

Section user_actions.
Implicit Types (video : row) (s : runtime) (taskId id : value).

(** What a queue patch leaves alone. *)
Lemma queue_patch_frame taskId (status message progress : value) video key :
  key ∉ queue_fields →
  (delete "id" ({[ "id" := taskId; "status" := status; "message" := message;
                   "progress" := progress ]} : row) ∪ video) !! key
  = video !! key.
Proof.
  intros Hkey. apply lookup_union_unset.
  destruct (decide (key = "id")) as [->|Hid]; [apply lookup_delete_eq|].
  rewrite lookup_delete_ne by done.
  unfold queue_fields in Hkey.
  assert ("status" ≠ key ∧ "message" ≠ key ∧ "progress" ≠ key)
    as (? & ? & ?) by (repeat split; intros <-; apply Hkey; listed).
  rewrite !lookup_insert_ne by congruence.
  by apply lookup_singleton_ne.
Qed.

Lemma cancelTask_accepts taskId s video :
  videoDao.selectByID taskId (table s) = Some video →
  get video "status" ∈ [VStr "waiting"; VStr "processing"; VStr "pending"] →
  taskService.cancelTask taskId s
  = (Returned true,
     Runtime (videoDao.update
                {[ "id" := taskId; "status" := VStr "failed";
                   "message" := VStr "Task cancelled by user";
                   "progress" := VNum 0 ]} (table s))
       (immediateQueue s) (unhandledRejections s)).
Proof.
  intros Hsel Hst. unfold taskService.cancelTask. js_step.
  rewrite Hsel. by rewrite decide_False by (intros Hn; apply Hn, Hst).
Qed.

Lemma cancelTask_rejects taskId s video :
  videoDao.selectByID taskId (table s) = Some video →
  get video "status" ∉ [VStr "waiting"; VStr "processing"; VStr "pending"] →
  taskService.cancelTask taskId s
  = (Thrown ("Cannot cancel task in status: " +:+ to_string (get video "status")), s).
Proof.
  intros Hsel Hst. unfold taskService.cancelTask. js_step.
  rewrite Hsel. by rewrite decide_True.
Qed.

Lemma cancelTask_missing taskId s :
  videoDao.selectByID taskId (table s) = None →
  taskService.cancelTask taskId s
  = (Thrown ("Task not found: " +:+ to_string taskId), s).
Proof.
  intros Hsel. unfold taskService.cancelTask. js_step. by rewrite Hsel.
Qed.

(** C4: cancelling a waiting, processing or pending job succeeds and leaves
    it failed with the cancellation message; cancelling a completed or
    failed job, or one that does not exist, throws and changes nothing.
    The job is named by its id as a number, or as the decimal text of the
    request path. *)
Theorem cancel_guard taskId s :
  integer_id taskId →
  (∀ video,
     videoDao.selectByID taskId (table s) = Some video →
     get video "status" ∈ [VStr "waiting"; VStr "processing"; VStr "pending"] →
     ∃ s' video',
       taskService.cancelTask taskId s = (Returned true, s')
       ∧ videoDao.selectByID taskId (table s') = Some video'
       ∧ get video' "status" = VStr "failed"
       ∧ get video' "message" = VStr "Task cancelled by user")
  ∧ (∀ video,
       videoDao.selectByID taskId (table s) = Some video →
       get video "status" ∈ [VStr "completed"; VStr "failed"] →
       taskService.cancelTask taskId s
       = (Thrown ("Cannot cancel task in status: "
                    +:+ to_string (get video "status")), s))
  ∧ (videoDao.selectByID taskId (table s) = None →
     taskService.cancelTask taskId s
     = (Thrown ("Task not found: " +:+ to_string taskId), s)).
Proof.
  intros _. split; [|split].
  - intros video Hsel Hst.
    eexists _, _. split; [by apply cancelTask_accepts with video|]. simpl.
    pose proof (selectByID_update
      {[ "id" := taskId; "status" := VStr "failed";
         "message" := VStr "Task cancelled by user"; "progress" := VNum 0 ]}
      (table s)) as Hup.
    change (get _ "id") with taskId in Hup. rewrite Hsel in Hup.
    split; [exact Hup|]. by rewrite !get_union.
  - intros video Hsel Hst. apply cancelTask_rejects; [done|].
    intros Hin. clear Hsel.
    apply list_elem_of_In in Hst, Hin. simpl in Hst, Hin.
    intuition congruence.
  - intros Hsel. by apply cancelTask_missing.
Qed.

Lemma cancel_guard_witness :
  (∃ s' video',
     taskService.cancelTask (VStr "1")
       (Runtime [ job 1 "pending" 100 (VStr "a1.wav") (VStr "h1") VNull ] [] [])
     = (Returned true, s')
     ∧ videoDao.selectByID (VStr "1") (table s') = Some video'
     ∧ get video' "status" = VStr "failed"
     ∧ get video' "message" = VStr "Task cancelled by user")
  ∧ taskService.cancelTask (VStr "1") completed_job
    = (Thrown "Cannot cancel task in status: completed", completed_job)
  ∧ taskService.cancelTask (VStr "7") completed_job
    = (Thrown "Task not found: 7", completed_job).
Proof.
  assert (integer_id (VStr "1")) as Hone by (by exists 1%Z).
  assert (integer_id (VStr "7")) as Hseven by (by exists 7%Z).
  split; [|split].
  - apply (proj1 (cancel_guard (VStr "1") _ Hone)
             (job 1 "pending" 100 (VStr "a1.wav") (VStr "h1") VNull));
      [reflexivity | listed].
  - apply (proj1 (proj2 (cancel_guard (VStr "1") completed_job Hone))
             (job 1 "completed" 100 (VStr "a1.wav") (VStr "h1") (VStr "done")));
      [reflexivity | listed].
  - apply (proj2 (proj2 (cancel_guard (VStr "7") completed_job Hseven))).
    reflexivity.
Defined.

(** C10: a successful cancel assigns status, message and progress of the job
    and leaves every other stored field of it, every other job and the
    pending callbacks as they were.  The job is named by its id as a
    number, or as the decimal text of the request path. *)
Theorem cancel_frame taskId s video :
  integer_id taskId →
  videoDao.selectByID taskId (table s) = Some video →
  get video "status" ∈ [VStr "waiting"; VStr "processing"; VStr "pending"] →
  ∃ s' video',
    taskService.cancelTask taskId s = (Returned true, s')
    ∧ videoDao.selectByID taskId (table s') = Some video'
    ∧ video' !! "status" = Some (VStr "failed")
    ∧ video' !! "message" = Some (VStr "Task cancelled by user")
    ∧ video' !! "progress" = Some (VNum 0)
    ∧ (∀ key, key ∉ queue_fields → video' !! key = video !! key)
    ∧ (∀ id, key_of id ≠ key_of taskId →
         videoDao.selectByID id (table s') = videoDao.selectByID id (table s))
    ∧ length (table s') = length (table s)
    ∧ immediateQueue s' = immediateQueue s.
Proof.
  intros _ Hsel Hst.
  eexists _, _. split; [by apply cancelTask_accepts with video|]. simpl.
  pose proof (selectByID_update
    {[ "id" := taskId; "status" := VStr "failed";
       "message" := VStr "Task cancelled by user"; "progress" := VNum 0 ]}
    (table s)) as Hup.
  change (get _ "id") with taskId in Hup. rewrite Hsel in Hup.
  split; [exact Hup|].
  split_and!; try assigned; try reflexivity.
  - intros key Hkey. by apply queue_patch_frame.
  - intros id Hne. by apply selectByID_update_other.
  - unfold videoDao.update. apply length_fmap.
Qed.

Lemma cancel_frame_witness :
  ∃ s' video',
    taskService.cancelTask (VStr "2")
      (Runtime [ job 1 "completed" 100 (VStr "a1.wav") (VStr "h1") (VStr "done");
                 job 2 "pending" 200 (VStr "a2.wav") (VStr "h2") VNull ] [] [])
    = (Returned true, s')
    ∧ videoDao.selectByID (VStr "2") (table s') = Some video'
    ∧ video' !! "status" = Some (VStr "failed")
    ∧ video' !! "message" = Some (VStr "Task cancelled by user")
    ∧ video' !! "progress" = Some (VNum 0)
    ∧ (∀ key, key ∉ queue_fields →
         video' !! key
         = job 2 "pending" 200 (VStr "a2.wav") (VStr "h2") VNull !! key)
    ∧ (∀ id, key_of id ≠ key_of (VStr "2") →
         videoDao.selectByID id (table s')
         = videoDao.selectByID id
             [ job 1 "completed" 100 (VStr "a1.wav") (VStr "h1") (VStr "done");
               job 2 "pending" 200 (VStr "a2.wav") (VStr "h2") VNull ])
    ∧ length (table s') = 2%nat
    ∧ immediateQueue s' = [].
Proof.
  apply (cancel_frame (VStr "2")
           (Runtime
              [ job 1 "completed" 100 (VStr "a1.wav") (VStr "h1") (VStr "done");
                job 2 "pending" 200 (VStr "a2.wav") (VStr "h2") VNull ] [] [])
           (job 2 "pending" 200 (VStr "a2.wav") (VStr "h2") VNull));
    [by exists 2%Z | reflexivity | listed].
Defined.

Lemma retryFailedTask_accepts taskId s video :
  videoDao.selectByID taskId (table s) = Some video →
  get video "status" = VStr "failed" →
  taskService.retryFailedTask taskId s
  = (Returned true,
     Runtime (videoDao.update
                {[ "id" := taskId; "status" := VStr "waiting";
                   "message" := VStr "Retrying task...";
                   "progress" := VNum 0 ]} (table s))
       (immediateQueue s) (unhandledRejections s)).
Proof.
  intros Hsel Hst. unfold taskService.retryFailedTask. js_step.
  rewrite Hsel. by rewrite decide_False by (intros Hn; apply Hn, Hst).
Qed.

Lemma retryFailedTask_rejects taskId s video :
  videoDao.selectByID taskId (table s) = Some video →
  get video "status" ≠ VStr "failed" →
  taskService.retryFailedTask taskId s
  = (Thrown ("Task is not in failed status: " +:+ to_string taskId), s).
Proof.
  intros Hsel Hst. unfold taskService.retryFailedTask. js_step.
  rewrite Hsel. by rewrite decide_True.
Qed.

Lemma retryFailedTask_missing taskId s :
  videoDao.selectByID taskId (table s) = None →
  taskService.retryFailedTask taskId s
  = (Thrown ("Task not found: " +:+ to_string taskId), s).
Proof.
  intros Hsel. unfold taskService.retryFailedTask. js_step. by rewrite Hsel.
Qed.

(** C3, as the code has it: retrying a failed job sets status to waiting,
    progress to 0 and the message to the retry notice, and keeps every
    other field, the task code and the audio path among them; retrying a
    job that is not failed, or that does not exist, throws and changes
    nothing.  The job is named by its id as a number, or as the decimal
    text of the request path. *)
Theorem retry_requeues_and_keeps_fields taskId s :
  integer_id taskId →
  (∀ video,
     videoDao.selectByID taskId (table s) = Some video →
     get video "status" = VStr "failed" →
     ∃ s' video',
       taskService.retryFailedTask taskId s = (Returned true, s')
       ∧ videoDao.selectByID taskId (table s') = Some video'
       ∧ video' !! "status" = Some (VStr "waiting")
       ∧ video' !! "progress" = Some (VNum 0)
       ∧ video' !! "message" = Some (VStr "Retrying task...")
       ∧ (∀ key, key ∉ queue_fields → video' !! key = video !! key)
       ∧ get video' "code" = get video "code"
       ∧ get video' "audio_path" = get video "audio_path")
  ∧ (∀ video,
       videoDao.selectByID taskId (table s) = Some video →
       get video "status" ≠ VStr "failed" →
       taskService.retryFailedTask taskId s
       = (Thrown ("Task is not in failed status: " +:+ to_string taskId), s))
  ∧ (videoDao.selectByID taskId (table s) = None →
     taskService.retryFailedTask taskId s
     = (Thrown ("Task not found: " +:+ to_string taskId), s)).
Proof.
  intros _. split; [|split].
  - intros video Hsel Hst.
    eexists _, _. split; [by apply retryFailedTask_accepts with video|]. simpl.
    pose proof (selectByID_update
      {[ "id" := taskId; "status" := VStr "waiting";
         "message" := VStr "Retrying task..."; "progress" := VNum 0 ]}
      (table s)) as Hup.
    change (get _ "id") with taskId in Hup. rewrite Hsel in Hup.
    split; [exact Hup|].
    assert (∀ key, key ∉ queue_fields →
              (delete "id" ({[ "id" := taskId; "status" := VStr "waiting";
                               "message" := VStr "Retrying task...";
                               "progress" := VNum 0 ]} : row) ∪ video) !! key
              = video !! key) as Hframe
      by (intros key Hkey; by apply queue_patch_frame).
    split_and!; try assigned; try exact Hframe.
    + unfold get. rewrite Hframe; [done | not_listed].
    + unfold get. rewrite Hframe; [done | not_listed].
  - intros video Hsel Hst. unfold taskService.retryFailedTask. js_step.
    rewrite Hsel. by rewrite decide_True.
  - intros Hsel. unfold taskService.retryFailedTask. js_step. by rewrite Hsel.
Qed.

Lemma retry_requeues_and_keeps_fields_witness :
  (∃ s' video',
     taskService.retryFailedTask (VStr "1") failed_after_submit = (Returned true, s')
     ∧ videoDao.selectByID (VStr "1") (table s') = Some video'
     ∧ video' !! "status" = Some (VStr "waiting")
     ∧ get video' "code" = VStr "h1"
     ∧ get video' "audio_path" = VStr "a1.wav")
  ∧ taskService.retryFailedTask (VStr "1") completed_job
    = (Thrown "Task is not in failed status: 1", completed_job)
  ∧ taskService.retryFailedTask (VStr "7") completed_job
    = (Thrown "Task not found: 7", completed_job).
Proof.
  assert (integer_id (VStr "1")) as Hone by (by exists 1%Z).
  assert (integer_id (VStr "7")) as Hseven by (by exists 7%Z).
  split; [|split].
  - destruct (proj1 (retry_requeues_and_keeps_fields (VStr "1")
                       failed_after_submit Hone)
                (job 1 "failed" 100 (VStr "a1.wav") (VStr "h1") (VStr "quota exceeded")))
      as (s' & video' & Hrun & Hsel & Hst & _ & _ & _ & Hcode & Haudio);
      [reflexivity | reflexivity |].
    exists s', video'. repeat split; assumption.
  - apply (proj1 (proj2 (retry_requeues_and_keeps_fields (VStr "1")
                           completed_job Hone))
             (job 1 "completed" 100 (VStr "a1.wav") (VStr "h1") (VStr "done")));
      [reflexivity | discriminate].
  - apply (proj2 (proj2 (retry_requeues_and_keeps_fields (VStr "7")
                           completed_job Hseven))).
    reflexivity.
Defined.

(** C3 as worded fails: the retried job still carries its task code and its
    audio path. *)
Lemma retry_clears_handle_counterexample :
  ¬ retry_clears_handle (VStr "1") failed_after_submit.
Proof.
  intros Hclaim.
  destruct (Hclaim (job 1 "failed" 100 (VStr "a1.wav") (VStr "h1")
                      (VStr "quota exceeded")))
    as (s' & video' & Hrun & Hsel & Hcode & _);
    [reflexivity | reflexivity |].
  assert ((λ v, get v "code")
            <$> videoDao.selectByID (VStr "1")
                  (table (taskService.retryFailedTask (VStr "1")
                            failed_after_submit).2)
          = Some (VStr "h1")) as Hfact by reflexivity.
  rewrite Hrun in Hfact. cbn [snd] in Hfact.
  rewrite Hsel in Hfact. simpl in Hfact. congruence.
Qed.

(** The generate handler throws at its first statement, whatever the
    request and the table. *)
Lemma generate_unbound id s :
  videosRouter.generate id s = (Thrown "videoDao is not defined", s).
Proof.
  unfold videosRouter.generate, videosRouter.naming.
  rewrite decide_False; [reflexivity|].
  unfold videosRouter.bindings. not_listed.
Qed.

(** C8 at a draft job: the generate handler throws at its first statement,
    [videoDao.selectByID(id)], because the module binds no [videoDao].  It
    does so for every request, whatever the job: no job becomes waiting
    through it and no synthesis is queued. *)
Theorem generate_throws_before_its_guard :
  videosRouter.generate (VStr "1") draft_job
  = (Thrown "videoDao is not defined", draft_job)
  ∧ (λ v, get v "status") <$> videoDao.selectByID (VStr "1") (table draft_job)
    = Some (VStr "draft")
  ∧ ∀ id s, videosRouter.generate id s = (Thrown "videoDao is not defined", s).
Proof.
  split_and!; [apply generate_unbound|reflexivity|apply generate_unbound].
Qed.

End user_actions.

(** ** Submitting a job: [synthesizeVideo] *)

Section synthesis.
Implicit Types (video model : row) (s : runtime) (videoId : value) (g : gateways).

Lemma selectByID_update_same patch (tbl : list row) (id : value) video :
  get patch "id" = id →
  videoDao.selectByID id tbl = Some video →
  videoDao.selectByID id (videoDao.update patch tbl)
  = Some (delete "id" patch ∪ video).
Proof.
  intros <- Hsel. by rewrite selectByID_update, Hsel.
Qed.

Lemma selectByID_update_none patch (tbl : list row) (id : value) :
  get patch "id" = id →
  videoDao.selectByID id tbl = None →
  videoDao.selectByID id (videoDao.update patch tbl) = None.
Proof.
  intros <- Hsel. by rewrite selectByID_update, Hsel.
Qed.

(** [updateStatus] is the update by the four-field object. *)
Lemma updateStatus_update (id : value) status message progress file_path
    (tbl : list row) :
  videoDao.updateStatus id status message progress file_path tbl
  = videoDao.update
      {[ "id" := id; "status" := VStr status; "message" := message;
         "progress" := progress; "file_path" := file_path ]} tbl.
Proof. reflexivity. Qed.

Lemma get_processing_patch videoId video key :
  key ∉ ["file_path"; "status"; "message"] →
  get (delete "id" ({[ "id" := videoId; "file_path" := VNull;
                       "status" := VStr "processing";
                       "message" := VStr "Submitting task..." ]} : row) ∪ video) key
  = get video key.
Proof.
  intros Hkey. unfold get. f_equal. apply lookup_union_unset.
  destruct (decide (key = "id")) as [->|Hid]; [apply lookup_delete_eq|].
  rewrite lookup_delete_ne by done.
  assert ("file_path" ≠ key ∧ "status" ≠ key ∧ "message" ≠ key)
    as (? & ? & ?) by (repeat split; intros <-; apply Hkey; listed).
  rewrite !lookup_insert_ne by congruence.
  by apply lookup_singleton_ne.
Qed.

(** Runs [synthesizeVideo] on a job that exists, up to its audio step. *)
Ltac synth_begin Hsel Hmodel :=
  unfold videoService.synthesizeVideo;
  unfold try_catch, mbind, js_bind, query, exec, throw, await, mret, js_ret;
  cbn [table immediateQueue unhandledRejections fst snd];
  erewrite selectByID_update_same by (reflexivity || exact Hsel);
  rewrite !get_processing_patch by not_listed;
  rewrite Hmodel.

(** The audio step of a job whose audio is ready returns its path and
    leaves the state alone. *)
Lemma audio_step g video model audioPath s :
  audio_ready g video model audioPath →
  (if truthy (get video "audio_path")
   then mret (get video "audio_path")
   else match voiceDao_selectByID g
                (js_or (get video "voice_id") (get model "voice_id")) with
        | Some voice =>
            voiceService.makeAudioForVideo g (get voice "id")
              (get video "text_content")
        | None =>
            throw ("Voice not found: "
                     +:+ to_string (js_or (get video "voice_id")
                                          (get model "voice_id")))
        end) s
  = (Returned audioPath, s).
Proof.
  intros [[Ht ->]|(Ht & voice & voice' & Hv & Hv' & Htts & ->)]; rewrite Ht.
  - reflexivity.
  - rewrite Hv. unfold voiceService.makeAudioForVideo, voiceService.makeAudio.
    rewrite Hv'. unfold audio_params in Htts.
    unfold try_catch, mbind, js_bind, await, mret, js_ret.
    by rewrite Htts.
Qed.




End synthesis.

(** ** Polling a pending job: [processPendingVideos] *)

Section polling.
Implicit Types (video : row) (s : runtime) (g : gateways) (tbl : list row).

Lemma head_filter_Some {A} (P : A → Prop) `{∀ x, Decision (P x)}
    (l : list A) (x : A) :
  head (filter P l) = Some x → x ∈ l ∧ P x.
Proof.
  intros Hhd.
  assert (x ∈ filter P l) as Hin.
  { destruct (filter P l) as [|y l']; [discriminate|].
    injection Hhd as ->. left. }
  apply list_elem_of_filter in Hin as [? ?]. by split.
Qed.

Lemma findFirstByStatus_found status tbl video :
  videoDao.findFirstByStatus status tbl = Some video →
  video ∈ tbl ∧ get video "status" = VStr status.
Proof.
  unfold videoDao.findFirstByStatus, videoDao.selectByStatus. intros Hhd.
  apply (head_filter_Some _ _ _ Hhd).
Qed.

(** On a primary key, a stored row is the row its id selects. *)
Lemma selectByID_member tbl video :
  primary_key tbl → video ∈ tbl →
  videoDao.selectByID (get video "id") tbl = Some video.
Proof.
  unfold primary_key, videoDao.selectByID.
  induction tbl as [|r tbl IH]; intros Hkey Hin.
  - by apply elem_of_nil in Hin.
  - rewrite fmap_cons in Hkey. apply NoDup_cons in Hkey as [Hfresh Hkey].
    apply elem_of_cons in Hin as [->|Hin].
    + by rewrite filter_cons_True.
    + rewrite filter_cons_False; [by apply IH|].
      intros Heq. apply Hfresh. rewrite Heq.
      apply list_elem_of_fmap. by exists video.
Qed.

(** The row a status update leaves behind. *)
Lemma selectByID_updateStatus (id : value) status message progress file_path
    tbl video :
  videoDao.selectByID id tbl = Some video →
  videoDao.selectByID id
    (videoDao.updateStatus id status message progress file_path tbl)
  = Some (({[ "status" := VStr status; "message" := message;
              "progress" := progress; "file_path" := file_path ]} : row) ∪ video).
Proof.
  intros Hsel. rewrite updateStatus_update.
  erewrite selectByID_update_same; [|reflexivity|exact Hsel].
  reflexivity.
Qed.

(** The completion handler never throws: a failing probe fails the job. *)
Lemma handleVideoCompletion_outcome g video data s :
  videoDao.selectByID (get video "id") (table s) = Some video →
  ∃ c s' video',
    videoService.handleVideoCompletion g video data s = (c, s')
    ∧ (c = Returned tt ∨ c = Awaiting)
    ∧ videoDao.selectByID (get video "id") (table s') = Some video'
    ∧ reflects (probe_state g data) video video'.
Proof.
  intros Hsel.
  unfold videoService.handleVideoCompletion, probe_state.
  unfold try_catch, mbind, js_bind, query, exec, throw, await, mret, js_ret.
  destruct (development g);
    [|destruct (getVideoDuration g (get data "result")) as [duration|e|]];
    cbn [table immediateQueue unhandledRejections fst snd].
  - eexists _, _, _. split; [reflexivity|]. split; [by left|]. cbn [table].
    split; [eapply selectByID_update_same; [reflexivity|exact Hsel]|].
    unfold reflects. rewrite !get_union. split_and!; reflexivity.
  - eexists _, _, _. split; [reflexivity|]. split; [by left|]. cbn [table].
    split; [eapply selectByID_update_same; [reflexivity|exact Hsel]|].
    unfold reflects. rewrite !get_union. split_and!; reflexivity.
  - eexists _, _, _. split; [reflexivity|]. split; [by left|]. cbn [table].
    split; [by apply selectByID_updateStatus|].
    unfold reflects. rewrite !get_union. split_and!; reflexivity.
  - eexists _, _, _. split; [reflexivity|]. split; [by right|].
    split; [exact Hsel|reflexivity].
Qed.




End polling.

(** ** The waiting queue: order of promotion and positions *)

Section waiting_queue.
Implicit Types (video : list row) (r task first : row) (s : runtime).

Lemma created_at_position task (a b : value) :
  created_at (<["totalInQueue" := a]> (<["queuePosition" := b]> task))
  = created_at task.
Proof.
  unfold created_at, get. by rewrite !lookup_insert_ne by done.
Qed.

Lemma filter_none {A} (P : A → Prop) `{∀ x, Decision (P x)} (l : list A) :
  Forall (λ x, ¬ P x) l → filter P l = [].
Proof.
  induction 1 as [|x l Hx Hl IH]; [reflexivity|].
  by rewrite filter_cons_False.
Qed.

(** In a list that strictly increases, the elements below the one at
    [index] are the [index] elements before it. *)
Lemma strictly_sorted_rank (l : list row) (index : nat) r :
  StronglySorted (λ r1 r2, (created_at r1 < created_at r2)%Z) l →
  l !! index = Some r →
  length (filter (λ x, (created_at x < created_at r)%Z) l) = index.
Proof.
  intros Hsorted. revert index.
  induction Hsorted as [|x l Hsorted IH Hall]; intros index Hlookup.
  - by rewrite lookup_nil in Hlookup.
  - destruct index as [|index]; simpl in Hlookup.
    + injection Hlookup as ->.
      rewrite filter_cons_False by lia.
      rewrite filter_none; [reflexivity|].
      eapply Forall_impl; [exact Hall|]. simpl. lia.
    + assert (created_at x < created_at r)%Z as Hlt.
      { rewrite Forall_forall in Hall. apply Hall.
        by eapply list_elem_of_lookup_2. }
      rewrite filter_cons_True by exact Hlt. simpl.
      f_equal. by apply IH.
Qed.

(** The position reported for a waiting job is its 1-based rank among the
    waiting rows in table order. *)
Lemma getWaitingTasks_lookup video index task :
  taskService.getWaitingTasks video !! index = Some task →
  ∃ r, videoDao.selectByStatus "waiting" video !! index = Some r
       ∧ get task "queuePosition" = VNum (Z.of_nat index + 1)
       ∧ get task "totalInQueue"
         = VNum (Z.of_nat (length (videoDao.selectByStatus "waiting" video)))
       ∧ created_at task = created_at r
       ∧ get task "id" = get r "id".
Proof.
  unfold taskService.getWaitingTasks. rewrite list_lookup_imap.
  destruct (videoDao.selectByStatus "waiting" video !! index) as [r|];
    [|discriminate].
  simpl. intros [= <-]. exists r. split; [reflexivity|].
  split_and!.
  - unfold get. rewrite lookup_insert_ne by done.
    by rewrite lookup_insert_eq.
  - unfold get. by rewrite lookup_insert_eq.
  - apply created_at_position.
  - unfold get. by rewrite !lookup_insert_ne by done.
Qed.




(** With no pending job, the tick queues the synthesis of the first waiting
    row, once in [processPendingVideos] and once more in
    [processTaskQueue], and leaves the table alone. *)
Lemma processTaskQueue_promotes g s first :
  videoDao.findFirstByStatus "pending" (table s) = None →
  videoDao.findFirstByStatus "waiting" (table s) = Some first →
  taskService.processTaskQueue g s
  = (Returned (taskService.QueueResult true VNull None),
     Runtime (table s)
       ((immediateQueue s ++ [get first "id"]) ++ [get first "id"])
       (unhandledRejections s)).
Proof.
  intros Hpending Hwaiting.
  unfold taskService.processTaskQueue, videoService.processPendingVideos,
    videoService.processNextWaitingVideo.
  js_step. rewrite Hpending. simpl. rewrite Hwaiting. simpl.
  rewrite Hwaiting. reflexivity.
Qed.

Lemma processTaskQueue_idle g s :
  videoDao.findFirstByStatus "pending" (table s) = None →
  videoDao.findFirstByStatus "waiting" (table s) = None →
  taskService.processTaskQueue g s
  = (Returned (taskService.QueueResult true VNull None), s).
Proof.
  intros Hpending Hwaiting.
  unfold taskService.processTaskQueue, videoService.processPendingVideos,
    videoService.processNextWaitingVideo.
  js_step. rewrite Hpending. simpl. rewrite Hwaiting. simpl.
  rewrite Hwaiting. reflexivity.
Qed.


End waiting_queue.

(** ** Exceptions during a tick *)

(** C9 at its failing input: one waiting job without audio, the TTS service
    down.  The tick itself resolves with [success: true] and the job ends
    failed with the error message; but [synthesizeVideo] rethrows, and each
    of the two callbacks the tick queued leaves a rejection that nothing
    handles. *)
Theorem tts_failure_escapes_the_tick :
  (taskService.processTaskQueue tts_down waiting_without_audio).1
  = Returned (taskService.QueueResult true VNull None)
  ∧ (λ v, (get v "status", get v "message"))
      <$> videoDao.selectByID (VNum 1)
            (table (handle (Tick tts_down (λ _, tts_down)) waiting_without_audio))
    = Some (VStr "failed", VStr "TTS service error: connect ECONNREFUSED")
  ∧ unhandledRejections
      (handle (Tick tts_down (λ _, tts_down)) waiting_without_audio)
    = [ "TTS service error: connect ECONNREFUSED";
        "TTS service error: connect ECONNREFUSED" ].
Proof. split_and!; reflexivity. Qed.

(** ** Writes to one job *)

Section table_writes.
Implicit Types (r video patch : row) (tbl : list row) (id j : value)
  (s : runtime) (g : gateways) (statuses : list string).

Lemma same_elsewhere_refl id tbl : same_elsewhere id tbl tbl.
Proof. unfold same_elsewhere. induction tbl; constructor; auto. Qed.

Lemma same_elsewhere_trans id tbl1 tbl2 tbl3 :
  same_elsewhere id tbl1 tbl2 → same_elsewhere id tbl2 tbl3 →
  same_elsewhere id tbl1 tbl3.
Proof.
  unfold same_elsewhere. intros H12. revert tbl3.
  induction H12 as [|r1 r2 l1 l2 [Hid Hne] _ IH]; intros tbl3 H23.
  - exact H23.
  - inversion H23 as [|? r3 ? l3 [Hid' Hne'] Hrest]; subst.
    constructor; [|by apply IH].
    split; [congruence|]. intros Hn.
    pose proof (Hne Hn) as Heq. subst r2. by apply Hne'.
Qed.

Lemma same_elsewhere_update patch tbl :
  same_elsewhere (get patch "id") tbl (videoDao.update patch tbl).
Proof.
  unfold same_elsewhere, videoDao.update.
  induction tbl as [|r tbl IH]; [constructor|].
  rewrite fmap_cons. constructor; [|exact IH].
  case_decide; [|done]. split; [apply get_id_assigned|done].
Qed.

Lemma same_elsewhere_update_id id patch tbl :
  get patch "id" = id → same_elsewhere id tbl (videoDao.update patch tbl).
Proof. intros <-. apply same_elsewhere_update. Qed.

Lemma writes_update id statuses tbl0 tbl patch status :
  same_elsewhere id tbl0 tbl →
  get patch "id" = id →
  patch !! "status" = Some (VStr status) →
  status ∈ statuses →
  writes id statuses tbl0 (videoDao.update patch tbl).
Proof.
  intros Hsame <- Hstatus Hin. split.
  - eapply same_elsewhere_trans; [exact Hsame|apply same_elsewhere_update].
  - unfold videoDao.update. apply Forall_fmap, Forall_forall.
    intros r _. simpl. case_decide as Hid.
    + intros _. exists status. split; [done|].
      rewrite get_union, lookup_delete_ne by done. by rewrite Hstatus.
    + intros Hid'. done.
Qed.

Lemma writes_more id statuses statuses' tbl tbl' :
  writes id statuses tbl tbl' → statuses ⊆ statuses' →
  writes id statuses' tbl tbl'.
Proof.
  intros [Hsame Hall] Hsub. split; [exact Hsame|].
  eapply Forall_impl; [exact Hall|]. simpl.
  intros r Hr Hid. destruct (Hr Hid) as (status & Hin & Hst).
  exists status. split; [by apply Hsub|exact Hst].
Qed.

Lemma same_elsewhere_ids id tbl tbl' :
  same_elsewhere id tbl tbl' →
  (λ r, get r "id") <$> tbl' = (λ r, get r "id") <$> tbl.
Proof.
  induction 1 as [|r r' l l' [Hid _] _ IH]; [reflexivity|].
  rewrite !fmap_cons. by f_equal.
Qed.

Lemma writes_primary_key id statuses tbl tbl' :
  writes id statuses tbl tbl' → primary_key tbl → primary_key tbl'.
Proof.
  intros [Hsame _]. unfold primary_key.
  pose proof (same_elsewhere_ids _ _ _ Hsame) as Hids.
  apply (f_equal (fmap key_of)) in Hids.
  rewrite <- !list_fmap_compose in Hids.
  unfold compose in Hids. by rewrite Hids.
Qed.

Lemma writes_length id statuses tbl tbl' :
  writes id statuses tbl tbl' → length tbl' = length tbl.
Proof. intros [Hsame _]. symmetry. by eapply Forall2_length. Qed.

Lemma same_elsewhere_select id tbl tbl' id' :
  same_elsewhere id tbl tbl' → key_of id' ≠ key_of id →
  videoDao.selectByID id' tbl' = videoDao.selectByID id' tbl.
Proof.
  intros Hsame Hne. unfold videoDao.selectByID.
  induction Hsame as [|r r' l l' [Hid Hother] _ IH]; [reflexivity|].
  rewrite !filter_cons, Hid.
  case_decide as Heq; [|exact IH].
  rewrite Hother by congruence. simpl. reflexivity.
Qed.

Lemma writes_select_status id statuses tbl tbl' video' :
  writes id statuses tbl tbl' →
  videoDao.selectByID id tbl' = Some video' →
  ∃ status, status ∈ statuses ∧ get video' "status" = VStr status.
Proof.
  intros [_ Hall] Hsel. apply selectByID_found in Hsel as [Hin Hid].
  rewrite Forall_forall in Hall. by apply Hall.
Qed.

(** After a write that leaves its job out of processing, a row in
    processing is a row of another job that was in processing before. *)
Lemma writes_processing id statuses tbl tbl' :
  writes id statuses tbl tbl' → "processing" ∉ statuses →
  Exists (λ r, get r "status" = VStr "processing") tbl' →
  Exists (λ r, get r "status" = VStr "processing"
               ∧ key_of (get r "id") ≠ key_of id) tbl.
Proof.
  intros [Hsame Hall] Hnot.
  induction Hsame as [|r r' l l' [Hid Hne] _ IH]; [by intros ?%Exists_nil|].
  apply Forall_cons in Hall as [Hr' Hall].
  intros [Hst|Hrest]%Exists_cons.
  - destruct (decide (key_of (get r "id") = key_of id)) as [Heq|Hneq].
    + destruct Hr' as (status & Hin & Hst'); [by rewrite Hid|].
      rewrite Hst' in Hst. injection Hst as ->. done.
    + left. rewrite (Hne Hneq) in Hst. by split.
  - right. by apply IH.
Qed.

(** A write to the job in hand, or one that leaves its job out of the
    slot, keeps the slot to the job in hand. *)
Lemma writes_occupies id j statuses tbl tbl' :
  writes id statuses tbl tbl' →
  key_of id = key_of j ∨ (("processing" ∉ statuses) ∧ ("pending" ∉ statuses)) →
  Forall (λ r, occupies r → key_of (get r "id") = key_of j) tbl →
  Forall (λ r, occupies r → key_of (get r "id") = key_of j) tbl'.
Proof.
  intros [Hsame Hall] Hcase.
  induction Hsame as [|r r' l l' [Hid Hne] _ IH]; [done|].
  apply Forall_cons in Hall as [Hr' Hall].
  intros [Hr Hl]%Forall_cons. constructor; [|by apply IH].
  destruct (decide (key_of (get r "id") = key_of id)) as [Heq|Hneq].
  - destruct Hcase as [Hj|[Hprocessing Hpending]].
    + intros _. by rewrite Hid, Heq.
    + destruct Hr' as (status & Hin & Hst); [by rewrite Hid|].
      intros [Hocc|Hocc]; rewrite Hst in Hocc; injection Hocc as ->; done.
  - by rewrite (Hne Hneq).
Qed.

(** On a primary key, the slot kept to one job holds one job at most. *)
Lemma occupies_in_flight j tbl :
  primary_key tbl →
  Forall (λ r, occupies r → key_of (get r "id") = key_of j) tbl →
  (in_flight tbl ≤ 1)%nat.
Proof.
  unfold primary_key, in_flight, videoDao.selectByStatus.
  induction tbl as [|r tbl IH]; [simpl; lia|].
  rewrite fmap_cons. intros [Hfresh Hkey]%NoDup_cons [Hr Hall]%Forall_cons.
  specialize (IH Hkey Hall).
  destruct (decide (occupies r)) as [Hocc|Hfree].
  - assert (Forall (λ r', ¬ occupies r') tbl) as Hnone.
    { apply Forall_forall. intros r' Hin Hocc'.
      apply Hfresh. rewrite (Hr Hocc).
      rewrite Forall_forall in Hall. rewrite <- (Hall r' Hin Hocc').
      apply list_elem_of_fmap. by exists r'. }
    rewrite !filter_cons.
    rewrite (filter_none (λ r, get r "status" = VStr "processing") tbl),
      (filter_none (λ r, get r "status" = VStr "pending") tbl).
    + destruct Hocc as [Hst|Hst]; rewrite Hst;
        repeat case_decide; simpl; try lia; congruence.
    + eapply Forall_impl; [exact Hnone|]. intros r' Hr' Hst. apply Hr'. by right.
    + eapply Forall_impl; [exact Hnone|]. intros r' Hr' Hst. apply Hr'. by left.
  - rewrite !filter_cons_False; [exact IH| |].
    + intros Hst. apply Hfree. by right.
    + intros Hst. apply Hfree. by left.
Qed.

End table_writes.

(** ** The calls in flight and the functions they belong to *)

Section phases.
Implicit Types (r video patch : row) (tbl : list row) (id j videoId : value)
  (s : runtime) (g : gateways) (c : continuation).

Ltac synth_case :=
  match goal with
  | |- context [match modelDao_selectByID ?g ?x with _ => _ end] =>
      destruct (modelDao_selectByID g x)
  | |- context [if truthy ?x then _ else _] => destruct (truthy x)
  | |- context [match voiceDao_selectByID ?g ?x with _ => _ end] =>
      destruct (voiceDao_selectByID g x)
  | |- context [makeAudioApi ?g ?x] => destruct (makeAudioApi g x) eqn:?
  | |- context [if development ?g then _ else _] => destruct (development g)
  | |- context [makeVideoApi ?g ?x] => destruct (makeVideoApi g x) eqn:?
  | |- context [decide (get ?r "code" = ?v)] => destruct (decide (get r "code" = v))
  end.

Ltac poll_case :=
  match goal with
  | |- context [getVideoStatus ?g ?x] => destruct (getVideoStatus g x)
  | |- context [getVideoDuration ?g ?x] => destruct (getVideoDuration g x)
  | |- context [if development ?g then _ else _] => destruct (development g)
  | |- context [sr_data ?a] => destruct (sr_data a)
  | |- context [decide ?P] => destruct (decide P)
  end.

(** Started and gone on with at once, the phases of [synthesizeVideo] are
    the callback that runs it. *)
Lemma startSynthesis_settle g videoId s :
  settle g (startSynthesis g videoId s) = runImmediate g videoId s.
Proof.
  unfold settle, startSynthesis, submitAudio, resume, submitAudio,
    recordSubmission, synthesisFailed, runImmediate.
  unfold videoService.synthesizeVideo, voiceService.makeAudioForVideo,
    voiceService.makeAudio, videoService.callFace2FaceAPI.
  unfold try_catch, mbind, js_bind, query, exec, throw, await, mret, js_ret.
  cbn [table immediateQueue unhandledRejections fst snd].
  destruct (videoDao.selectByID videoId _) as [video|];
    cbn [table immediateQueue unhandledRejections fst snd]; [|reflexivity].
  repeat (synth_case; cbn [table immediateQueue unhandledRejections fst snd]).
  all: try discriminate.
  all: reflexivity.
Qed.

(** Started and gone on with at once, the phases of the tick are
    [processTaskQueue]. *)
Lemma startTick_settle g s :
  settle g (startTick s) = (taskService.processTaskQueue g s).2.
Proof.
  unfold settle, startTick.
  unfold taskService.processTaskQueue, videoService.processPendingVideos.
  unfold try_catch, mbind, js_bind, query, exec, throw, await, mret, js_ret.
  destruct (videoDao.findFirstByStatus "pending" (table s)) as [video|];
    cbn [table immediateQueue unhandledRejections fst snd].
  2: { unfold videoService.processNextWaitingVideo.
       unfold mbind, js_bind, query, setImmediate, mret, js_ret.
       cbn [table immediateQueue unhandledRejections fst snd].
       destruct (videoDao.findFirstByStatus "waiting" (table s)) eqn:Hwaiting;
         cbn [table immediateQueue unhandledRejections fst snd];
         rewrite ?Hwaiting; reflexivity. }
  unfold resume.
  destruct (getVideoStatus g (get video "code")) as [answer|e|] eqn:Hpoll;
    [|reflexivity|by rewrite Hpoll].
  unfold recordStatus.
  destruct (decide (sr_code answer ∈ _)); [reflexivity|].
  destruct (decide (sr_code answer = _)); [|reflexivity].
  destruct (sr_data answer) as [| |data]; [reflexivity|reflexivity|].
  destruct (decide (get data "status" = VNum 1)); [reflexivity|].
  destruct (decide (get data "status" = VNum 2)).
  2: { destruct (decide (get data "status" = VNum 3)); reflexivity. }
  unfold videoService.handleVideoCompletion, recordCompletion, pollFailed.
  unfold try_catch, mbind, js_bind, query, exec, throw, await, mret, js_ret.
  destruct (development g); [reflexivity|].
  cbn [table immediateQueue unhandledRejections fst snd].
  destruct (getVideoDuration g (get data "result")); reflexivity.
Qed.

Lemma processPendingVideos_polls g s video :
  videoDao.findFirstByStatus "pending" (table s) = Some video →
  ((videoService.processPendingVideos g s).1 = Returned (Some video)
   ∨ (videoService.processPendingVideos g s).1 = Awaiting)
  ∧ (table (videoService.processPendingVideos g s).2 = table s
     ∨ writes (get video "id") ["pending"; "completed"; "failed"] (table s)
         (table (videoService.processPendingVideos g s).2))
  ∧ immediateQueue (videoService.processPendingVideos g s).2 = immediateQueue s
  ∧ unhandledRejections (videoService.processPendingVideos g s).2
    = unhandledRejections s.
Proof.
  intros Hfirst.
  unfold videoService.processPendingVideos, videoService.handleVideoCompletion.
  unfold try_catch, mbind, js_bind, query, exec, throw, await, mret, js_ret.
  rewrite Hfirst.
  repeat (poll_case; cbn [table immediateQueue unhandledRejections fst snd]).
  all: split; [by (left + right)|].
  all: split; [|split; reflexivity].
  all: try (right; rewrite ?updateStatus_update;
            eapply writes_update;
              [ apply same_elsewhere_refl | reflexivity | reflexivity | listed ]).
  all: by left.
Qed.

Lemma intervalCallback_state g s :
  (taskService.intervalCallback g s).2 = (taskService.processTaskQueue g s).2.
Proof.
  unfold taskService.intervalCallback.
  unfold try_catch, mbind, js_bind, mret, js_ret.
  by destruct (taskService.processTaskQueue g s) as [[?|?|] ?].
Qed.

Lemma processTaskQueue_polls g s video :
  videoDao.findFirstByStatus "pending" (table s) = Some video →
  (taskService.processTaskQueue g s).2 = (videoService.processPendingVideos g s).2.
Proof.
  intros Hfirst.
  destruct (processPendingVideos_polls g s video Hfirst) as (Hc & _).
  unfold taskService.processTaskQueue.
  unfold try_catch, mbind, js_bind, mret, js_ret.
  destruct (videoService.processPendingVideos g s) as [c s1].
  simpl in Hc. by destruct Hc as [-> | ->].
Qed.

(** A write by a suspended function, as the first write to the table. *)
Ltac answer_write :=
  rewrite ?updateStatus_update;
  eapply writes_update;
    [ apply same_elsewhere_refl | reflexivity | reflexivity | listed ].

(** What a suspended function does when it goes on: it writes to its own
    job only, and never [processing]; it queues nothing; what it suspends
    on next belongs to the same job, and a synthesis that has not written
    is still suspended. *)
Lemma resume_effect g c s :
  immediateQueue (resume g c s).1 = immediateQueue s
  ∧ Forall (λ c', owner c' = owner c) (resume g c s).2
  ∧ ((table (resume g c s).1 = table s
      ∧ (synthesis c = true →
         Exists (λ c', synthesis c' = true) (resume g c s).2))
     ∨ writes (owner c) ["pending"; "failed"; "completed"] (table s)
         (table (resume g c s).1)).
Proof.
  destruct c as [videoId model uuid audioParams|videoId audioPath param
                 |video|video data];
    unfold resume, owner.
  - destruct (makeAudioApi g audioParams).
    + unfold submitAudio, recordSubmission.
      destruct (development g); cbn [fst snd table immediateQueue].
      * split; [reflexivity|]. split; [constructor|].
        right. rewrite decide_True by reflexivity. answer_write.
      * split; [reflexivity|]. split; [by repeat constructor|].
        left. split; [reflexivity|]. intros _. by repeat constructor.
    + unfold synthesisFailed. cbn [fst snd table immediateQueue].
      split; [reflexivity|]. split; [constructor|]. right. answer_write.
    + cbn [fst snd]. split; [reflexivity|]. split; [by repeat constructor|].
      left. split; [reflexivity|]. intros _. by repeat constructor.
  - destruct (makeVideoApi g param) as [result| |].
    + unfold recordSubmission. cbn [fst snd table immediateQueue].
      split; [reflexivity|]. split; [constructor|]. right.
      destruct (decide (get result "code" = VNum 10000)); answer_write.
    + unfold synthesisFailed. cbn [fst snd table immediateQueue].
      split; [reflexivity|]. split; [constructor|]. right. answer_write.
    + cbn [fst snd]. split; [reflexivity|]. split; [by repeat constructor|].
      left. split; [reflexivity|]. intros _. by repeat constructor.
  - destruct (getVideoStatus g (get video "code")) as [answer| |].
    + unfold recordStatus, recordCompletion, pollFailed.
      repeat (poll_case; cbn [fst snd table immediateQueue]).
      all: split; [reflexivity|].
      all: split; [by repeat constructor|].
      all: try (right; answer_write).
      all: left; split; [reflexivity|]; intros; discriminate.
    + unfold pollFailed. cbn [fst snd table immediateQueue].
      split; [reflexivity|]. split; [constructor|]. right. answer_write.
    + cbn [fst snd]. split; [reflexivity|]. split; [by repeat constructor|].
      left. split; [reflexivity|]. intros; discriminate.
  - destruct (getVideoDuration g (get data "result")).
    + unfold recordCompletion. cbn [fst snd table immediateQueue].
      split; [reflexivity|]. split; [constructor|]. right. answer_write.
    + unfold pollFailed. cbn [fst snd table immediateQueue].
      split; [reflexivity|]. split; [constructor|]. right. answer_write.
    + cbn [fst snd]. split; [reflexivity|]. split; [by repeat constructor|].
      left. split; [reflexivity|]. intros; discriminate.
Qed.

(** What a callback does up to its first call to another service: it
    writes to its own job only; either it leaves the job in processing and
    is suspended, or it has ended and the job is pending or failed. *)
Lemma startSynthesis_effect g videoId s :
  immediateQueue (startSynthesis g videoId s).1 = immediateQueue s
  ∧ Forall (λ c, owner c = videoId) (startSynthesis g videoId s).2
  ∧ ((writes videoId ["processing"] (table s)
        (table (startSynthesis g videoId s).1)
      ∧ Exists (λ c, synthesis c = true) (startSynthesis g videoId s).2)
     ∨ (writes videoId ["pending"; "failed"] (table s)
          (table (startSynthesis g videoId s).1)
        ∧ (startSynthesis g videoId s).2 = [])).
Proof.
  unfold startSynthesis, submitAudio, recordSubmission, synthesisFailed.
  cbn [table immediateQueue unhandledRejections].
  destruct (videoDao.selectByID videoId _) as [video|];
    cbn [fst snd table immediateQueue unhandledRejections].
  2: { split; [reflexivity|]. split; [constructor|]. right.
       split; [|reflexivity].
       rewrite ?updateStatus_update.
       eapply writes_update;
         [ apply same_elsewhere_update_id; reflexivity
         | reflexivity | reflexivity | listed ]. }
  repeat (synth_case; cbn [fst snd table immediateQueue unhandledRejections]).
  all: split; [reflexivity|].
  all: split; [by repeat constructor|].
  all: try (left; split; [|by repeat constructor];
            eapply writes_update;
              [ apply same_elsewhere_refl | reflexivity | reflexivity | listed ]).
  all: right; split; [|reflexivity].
  all: rewrite ?decide_True by reflexivity.
  all: rewrite ?updateStatus_update.
  all: eapply writes_update;
         [ apply same_elsewhere_update_id; reflexivity
         | reflexivity | reflexivity | listed ].
Qed.

End phases.

(** ** Single flight *)

Section single_flight.
Implicit Types (r video : row) (tbl : list row) (id j videoId taskId : value)
  (s : runtime) (sv : server) (g : gateways) (c : continuation) (a : action).

Lemma cancelTask_effect taskId s :
  immediateQueue (taskService.cancelTask taskId s).2 = immediateQueue s
  ∧ (table (taskService.cancelTask taskId s).2 = table s
     ∨ writes taskId ["failed"] (table s)
         (table (taskService.cancelTask taskId s).2)).
Proof.
  unfold taskService.cancelTask.
  unfold try_catch, mbind, js_bind, query, exec, throw, mret, js_ret.
  destruct (videoDao.selectByID taskId (table s)) as [video|];
    [|by split; [|left]].
  cbn [fst snd]. case_decide; [by split; [|left]|].
  cbn [fst snd table immediateQueue]. split; [reflexivity|]. right.
  eapply writes_update;
    [ apply same_elsewhere_refl | reflexivity | reflexivity | listed ].
Qed.

Lemma retryFailedTask_effect taskId s :
  immediateQueue (taskService.retryFailedTask taskId s).2 = immediateQueue s
  ∧ (table (taskService.retryFailedTask taskId s).2 = table s
     ∨ writes taskId ["waiting"] (table s)
         (table (taskService.retryFailedTask taskId s).2)).
Proof.
  unfold taskService.retryFailedTask.
  unfold try_catch, mbind, js_bind, query, exec, throw, mret, js_ret.
  destruct (videoDao.selectByID taskId (table s)) as [video|];
    [|by split; [|left]].
  cbn [fst snd]. case_decide; [by split; [|left]|].
  cbn [fst snd table immediateQueue]. split; [reflexivity|]. right.
  eapply writes_update;
    [ apply same_elsewhere_refl | reflexivity | reflexivity | listed ].
Qed.

Lemma startVideoGeneration_effect videoId s :
  immediateQueue (videoService.startVideoGeneration videoId s).2
  = immediateQueue s
  ∧ writes videoId ["waiting"] (table s)
      (table (videoService.startVideoGeneration videoId s).2).
Proof.
  split; [reflexivity|].
  unfold videoService.startVideoGeneration.
  unfold mbind, js_bind, exec, mret, js_ret. cbn [fst snd table].
  eapply writes_update;
    [ apply same_elsewhere_refl | reflexivity | reflexivity | listed ].
Qed.

(** With nothing due, a state that is single handed has no job in
    processing. *)
Lemma idle_no_processing j sv :
  single_handed j sv → idle sv →
  ¬ Exists (λ r, get r "status" = VStr "processing") (table (memory sv)).
Proof.
  intros (_ & _ & _ & _ & Hprocessing) [Hqueue Hout] Hex.
  destruct (Hprocessing Hex) as [Hne|Hsynth]; [done|].
  rewrite Hout in Hsynth. by apply Exists_nil in Hsynth.
Qed.

(** A request that writes one job out of the slot, or nothing at all. *)
Lemma request_single_handed j sv s' id status :
  single_handed j sv → idle sv →
  immediateQueue s' = immediateQueue (memory sv) →
  table s' = table (memory sv)
  ∨ writes id [status] (table (memory sv)) (table s') →
  status ≠ "processing" → status ≠ "pending" →
  single_handed j (Server s' (outstanding sv)).
Proof.
  intros Hinv Hidle Hqueue Htable Hp1 Hp2.
  pose proof (idle_no_processing _ _ Hinv Hidle) as Hnone.
  destruct Hinv as (Hkey & Hslot & Hout & Hq & Hprocessing).
  unfold single_handed. cbn [memory outstanding]. rewrite Hqueue.
  destruct Htable as [->|Hwrites]; [by split_and!|].
  split_and!; try assumption.
  - by eapply writes_primary_key.
  - eapply writes_occupies; [exact Hwrites| |exact Hslot].
    right. split; intros [Heq|[]%elem_of_nil]%elem_of_cons; congruence.
  - intros Hex. exfalso. apply Hnone.
    eapply writes_processing in Hex; [|exact Hwrites|].
    + eapply Exists_impl; [exact Hex|]. by intros r [? _].
    + intros [Heq|[]%elem_of_nil]%elem_of_cons. congruence.
Qed.

(** [deleteVideo] leaves the table as it was, or without the rows of the
    id it was given. *)
Lemma deleteVideo_table modelDir ttsProductDir path_join id tbl disk :
  (deleteVideo modelDir ttsProductDir path_join id (tbl, disk)).2.1 = tbl
  ∨ (deleteVideo modelDir ttsProductDir path_join id (tbl, disk)).2.1
    = videoDao.remove id tbl.
Proof.
  unfold deleteVideo. cbn [fst snd].
  destruct (videoDao.selectByID id tbl) as [video|]; [|by left].
  destruct (unlinkIfPresent path_join modelDir (get video "file_path") disk)
    as [[[]|e1|] disk1]; [|by left|by left].
  destruct (unlinkIfPresent path_join ttsProductDir (get video "audio_path")
              disk1) as [[[]|e2|] disk2]; [by right|by left|by left].
Qed.

(** A request that deletes a job. *)
Lemma remove_single_handed j sv id :
  single_handed j sv →
  single_handed j
    (Server (Runtime (videoDao.remove id (table (memory sv)))
               (immediateQueue (memory sv)) (unhandledRejections (memory sv)))
       (outstanding sv)).
Proof.
  intros (Hkey & Hslot & Hout & Hq & Hprocessing).
  assert (videoDao.remove id (table (memory sv))
            `sublist_of` table (memory sv)) as Hsub
    by apply sublist_filter.
  unfold single_handed. cbn [memory outstanding table immediateQueue].
  split_and!; try assumption.
  - unfold primary_key in *.
    eapply sublist_NoDup; [exact Hkey|]. by apply fmap_sublist.
  - apply Forall_forall. intros r Hr. rewrite Forall_forall in Hslot.
    apply Hslot. by eapply elem_of_sublist.
  - intros Hex. apply Hprocessing.
    apply Exists_exists in Hex as (r & Hr & Hst).
    apply Exists_exists. exists r. split; [|exact Hst].
    by eapply elem_of_sublist.
Qed.

(** One turn of the event loop keeps a sequential run single handed. *)
Lemma step_single_handed a j sv :
  single_handed j sv → internal a = true ∨ idle sv →
  ∃ j', single_handed j' (turn a sv).
Proof.
  intros Hinv Hturn.
  destruct a as [|g|k g|id|id|id|id modelDir ttsProductDir path_join disk
                |videoId];
    cbn [internal] in Hturn;
    [destruct Hturn as [[=]|Hidle]|clear Hturn|clear Hturn
    |destruct Hturn as [[=]|Hidle]..].
  - (* the timer fires *)
    pose proof (idle_no_processing _ _ Hinv Hidle) as Hnone.
    destruct Hidle as [Hqueue Hout].
    destruct Hinv as (Hkey & Hslot & _ & _ & _).
    unfold turn, startTick.
    destruct (videoDao.findFirstByStatus "pending" (table (memory sv)))
      as [video|] eqn:Hpending.
    + exists (get video "id"). unfold single_handed.
      cbn [memory outstanding]. rewrite Hout, Hqueue.
      apply findFirstByStatus_found in Hpending as [Hin Hst].
      split_and!; [exact Hkey| |by repeat constructor|constructor|].
      * rewrite Forall_forall in Hslot.
        rewrite (Hslot video Hin) by (by right).
        by apply Forall_forall.
      * intros Hex. by apply Hnone in Hex.
    + unfold videoService.processNextWaitingVideo.
      unfold mbind, js_bind, query, setImmediate, mret, js_ret.
      cbn [table immediateQueue unhandledRejections fst snd].
      assert (Forall (λ r, ¬ occupies r) (table (memory sv))) as Hfree.
      { apply Forall_forall. intros r Hr [Hst|Hst].
        - apply Hnone, Exists_exists. by exists r.
        - unfold videoDao.findFirstByStatus, videoDao.selectByStatus in Hpending.
          assert (r ∈ filter (λ r, get r "status" = VStr "pending")
                        (table (memory sv))) as Hin
            by (by apply list_elem_of_filter).
          destruct (filter _ (table (memory sv)));
            [by apply elem_of_nil in Hin|discriminate]. }
      destruct (videoDao.findFirstByStatus "waiting" (table (memory sv)))
        as [first|] eqn:Hwaiting;
        cbn [table immediateQueue unhandledRejections fst snd];
        rewrite ?Hwaiting;
        cbn [table immediateQueue unhandledRejections fst snd].
      * exists (get first "id"). unfold single_handed.
        cbn [memory outstanding table immediateQueue]. rewrite Hout, Hqueue.
        split_and!; [exact Hkey| |constructor|by repeat constructor|by left].
        eapply Forall_impl; [exact Hfree|]. by intros r Hr Hocc.
      * exists j. unfold single_handed.
        cbn [memory outstanding table immediateQueue]. rewrite Hout, Hqueue.
        split_and!; [exact Hkey| |constructor|constructor|].
        -- eapply Forall_impl; [exact Hfree|]. by intros r Hr Hocc.
        -- intros Hex. by apply Hnone in Hex.
  - (* a queued callback starts *)
    exists j. unfold turn.
    destruct (immediateQueue (memory sv)) as [|videoId queue] eqn:Hqueue;
      [exact Hinv|].
    destruct Hinv as (Hkey & Hslot & Hout & Hq & _).
    rewrite Hqueue in Hq. apply Forall_cons in Hq as [Hid Hq].
    pose proof (startSynthesis_effect g videoId
                  (Runtime (table (memory sv)) queue
                     (unhandledRejections (memory sv))))
      as (Hqueue' & Howner & Hcase).
    destruct (startSynthesis g videoId _) as [s' started].
    cbn [fst snd table immediateQueue] in Hqueue', Howner, Hcase.
    unfold single_handed. cbn [memory outstanding]. rewrite Hqueue'.
    assert (Forall (λ c, key_of (owner c) = key_of j) (outstanding sv ++ started))
      as Hout'.
    { apply Forall_app. split; [exact Hout|].
      eapply Forall_impl; [exact Howner|]. by intros c ->. }
    destruct Hcase as [[Hwrites Hsynth]|[Hwrites ->]].
    + split_and!; try assumption.
      * by eapply writes_primary_key.
      * eapply writes_occupies; [exact Hwrites|by left|exact Hslot].
      * intros _. right. apply Exists_app. by right.
    + split_and!; try assumption.
      * by eapply writes_primary_key.
      * eapply writes_occupies; [exact Hwrites|by left|exact Hslot].
      * intros Hex. exfalso.
        eapply writes_processing in Hex; [|exact Hwrites|not_listed].
        apply Exists_exists in Hex as (r & Hr & Hst & Hne).
        rewrite Forall_forall in Hslot.
        apply Hne. rewrite Hid. apply Hslot; [exact Hr|by left].
  - (* an answer arrives *)
    exists j. unfold turn.
    destruct (outstanding sv !! k) as [c|] eqn:Hk; [|exact Hinv].
    destruct Hinv as (Hkey & Hslot & Hout & Hq & Hprocessing).
    pose proof (Forall_lookup_1 _ _ _ _ Hout Hk) as Hc.
    pose proof (resume_effect g c (memory sv)) as (Hqueue' & Howner & Hcase).
    destruct (resume g c (memory sv)) as [s' rest].
    cbn [fst snd] in Hqueue', Howner, Hcase.
    unfold single_handed. cbn [memory outstanding]. rewrite Hqueue'.
    assert (Forall (λ c, key_of (owner c) = key_of j)
              (take k (outstanding sv) ++ rest ++ drop (S k) (outstanding sv)))
      as Hout'.
    { apply Forall_app. split; [by apply Forall_take|].
      apply Forall_app. split; [|by apply Forall_drop].
      eapply Forall_impl; [exact Howner|]. intros c' ->. exact Hc. }
    destruct Hcase as [[Htable Hsynth]|Hwrites].
    + rewrite Htable. split_and!; try assumption.
      intros Hex. destruct (Hprocessing Hex) as [Hne|Hsome]; [by left|].
      right. rewrite <- (take_drop_middle _ _ _ Hk) in Hsome.
      apply Exists_app in Hsome as [Hsome|Hsome];
        [apply Exists_app; by left|].
      apply Exists_cons in Hsome as [Hsome|Hsome].
      * apply Exists_app. right. apply Exists_app. left. by apply Hsynth.
      * apply Exists_app. right. apply Exists_app. by right.
    + split_and!; try assumption.
      * by eapply writes_primary_key.
      * eapply writes_occupies; [exact Hwrites|by left|exact Hslot].
      * intros Hex. exfalso.
        eapply writes_processing in Hex; [|exact Hwrites|not_listed].
        apply Exists_exists in Hex as (r & Hr & Hst & Hne).
        rewrite Forall_forall in Hslot.
        apply Hne. rewrite Hc. apply Hslot; [exact Hr|by left].
  - (* cancel *)
    exists j. unfold turn.
    destruct (cancelTask_effect id (memory sv)) as [Hqueue Htable].
    by eapply (request_single_handed _ _ _ id "failed").
  - (* retry *)
    exists j. unfold turn.
    destruct (retryFailedTask_effect id (memory sv)) as [Hqueue Htable].
    by eapply (request_single_handed _ _ _ id "waiting").
  - (* generate *)
    exists j. unfold turn. rewrite generate_unbound. cbn [snd].
    by destruct sv.
  - (* delete *)
    exists j. unfold turn.
    pose proof (deleteVideo_table modelDir ttsProductDir path_join id
                  (table (memory sv)) disk) as Htable.
    destruct (deleteVideo modelDir ttsProductDir path_join id
                (table (memory sv), disk)) as [c [video disk']].
    cbn [fst snd] in Htable. destruct Htable as [->| ->].
    + by destruct sv as [[tbl queue rejections] out].
    + by apply remove_single_handed.
  - (* startVideoGeneration *)
    exists j. unfold turn.
    destruct (startVideoGeneration_effect videoId (memory sv))
      as [Hqueue Htable].
    eapply (request_single_handed _ _ _ videoId "waiting"); try done.
    by right.
Qed.

Lemma steps_single_handed actions j sv :
  single_handed j sv → sequential actions sv →
  ∃ j', single_handed j' (turns actions sv).
Proof.
  revert j sv. induction actions as [|a actions IH]; intros j sv Hinv Hseq.
  - by exists j.
  - destruct Hseq as [Hturn Hseq].
    destruct (step_single_handed a j sv Hinv Hturn) as [j' Hinv'].
    exact (IH j' (turn a sv) Hinv' Hseq).
Qed.

(** Where a sequential run may start, the job in hand is the pending one,
    if there is one. *)
Lemma quiescent_single_handed sv :
  quiescent sv → ∃ j, single_handed j sv.
Proof.
  intros (Hkey & Hprocessing & Hpending & Hqueue & Hout).
  exists (from_option (λ v, get v "id") VNull
            (videoDao.findFirstByStatus "pending" (table (memory sv)))).
  unfold single_handed. rewrite Hqueue, Hout.
  split_and!; try done.
  - apply Forall_forall. intros r Hr [Hst|Hst].
    + assert (r ∈ videoDao.selectByStatus "processing" (table (memory sv)))
        as Hin by (by apply list_elem_of_filter).
      rewrite Hprocessing in Hin. by apply elem_of_nil in Hin.
    + assert (r ∈ videoDao.selectByStatus "pending" (table (memory sv)))
        as Hin by (by apply list_elem_of_filter).
      unfold videoDao.findFirstByStatus.
      destruct (videoDao.selectByStatus "pending" (table (memory sv)))
        as [|first [|second rest]]; simpl in Hpending; try lia.
      * by apply elem_of_nil in Hin.
      * by apply list_elem_of_singleton in Hin as ->.
  - intros Hex. apply Exists_exists in Hex as (r & Hr & Hst).
    assert (r ∈ videoDao.selectByStatus "processing" (table (memory sv)))
      as Hin by (by apply list_elem_of_filter).
    rewrite Hprocessing in Hin. by apply elem_of_nil in Hin.
Qed.

Lemma single_handed_quiescent j sv :
  single_handed j sv → idle sv → quiescent sv.
Proof.
  intros Hinv Hidle.
  pose proof (idle_no_processing _ _ Hinv Hidle) as Hnone.
  destruct Hinv as (Hkey & Hslot & _).
  pose proof (occupies_in_flight _ _ Hkey Hslot) as Hflight.
  unfold in_flight in Hflight.
  split_and!; [exact Hkey| |lia|exact Hidle].
  apply filter_none, Forall_forall. intros r Hr Hst.
  apply Hnone, Exists_exists. by exists r.
Qed.

(** A sequential run is sequential up to each of its turns. *)
Lemma sequential_take n actions sv :
  sequential actions sv → sequential (take n actions) sv.
Proof.
  revert n sv. induction actions as [|a actions IH]; intros n sv Hseq.
  - by rewrite take_nil.
  - destruct n as [|n]; [exact I|].
    destruct Hseq as [Hturn Hseq]. split; [exact Hturn|].
    by apply IH.
Qed.


End single_flight.

(** ** Promotion in table order *)

Section promotion.
Implicit Types (r first : row) (tbl : list row) (sv : server) (g : gateways).



End promotion.



(** * Further properties of the modelled code *)

(** ** The DAO: update *)

Section dao_round_trips.
Implicit Types (r video patch : row) (tbl : list row) (id : value).

Lemma selectByID_None id tbl :
  videoDao.selectByID id tbl = None
  ↔ Forall (λ r, key_of (get r "id") ≠ key_of id) tbl.
Proof.
  unfold videoDao.selectByID. split.
  - intros Hnone. apply Forall_forall. intros r Hr Hid.
    assert (r ∈ filter (λ r, key_of (get r "id") = key_of id) tbl) as Hin
      by (by apply list_elem_of_filter).
    destruct (filter _ tbl); [by apply elem_of_nil in Hin|discriminate].
  - intros Hall. rewrite filter_none; [reflexivity|].
    eapply Forall_impl; [exact Hall|]. auto.
Qed.

Lemma update_absent patch tbl :
  videoDao.selectByID (get patch "id") tbl = None →
  videoDao.update patch tbl = tbl.
Proof.
  rewrite selectByID_None. unfold videoDao.update.
  induction 1 as [|r tbl Hr _ IH]; [reflexivity|].
  rewrite fmap_cons, IH. by rewrite decide_False.
Qed.

(** The update merges the named fields into the rows of the given id and
    into no other row; on an id that no row has it changes nothing.  The
    object names at least one column besides [id] and nothing that is not
    a column: otherwise the statement it builds is not valid SQL. *)
Theorem update_merges patch tbl :
  (∃ key, key ≠ "id" ∧ is_Some (patch !! key)) →
  (∀ key, is_Some (patch !! key) → key ∈ videoDao.columns) →
  (∀ video,
     videoDao.selectByID (get patch "id") tbl = Some video →
     ∃ video',
       videoDao.selectByID (get patch "id") (videoDao.update patch tbl)
       = Some video'
       ∧ video' !! "id" = video !! "id"
       ∧ ∀ key, key ≠ "id" →
           video' !! key
           = match patch !! key with Some v => Some v | None => video !! key end)
  ∧ (videoDao.selectByID (get patch "id") tbl = None →
     videoDao.update patch tbl = tbl)
  ∧ (∀ id, key_of id ≠ key_of (get patch "id") →
       videoDao.selectByID id (videoDao.update patch tbl)
       = videoDao.selectByID id tbl)
  ∧ length (videoDao.update patch tbl) = length tbl.
Proof.
  intros _ _. split_and!.
  - intros video Hsel. eexists. split; [|split].
    + by rewrite selectByID_update, Hsel.
    + apply lookup_union_unset, lookup_delete_eq.
    + intros key Hkey. rewrite lookup_union, lookup_delete_ne by done.
      by destruct (patch !! key), (video !! key).
  - apply update_absent.
  - intros id Hid. by apply selectByID_update_other.
  - unfold videoDao.update. apply length_fmap.
Qed.

Lemma update_merges_witness :
  ∃ video',
    videoDao.selectByID (VNum 1)
      (videoDao.update {[ "id" := VNum 1; "progress" := VNum 7 ]}
         (table pending_job))
    = Some video'
    ∧ video' !! "progress" = Some (VNum 7)
    ∧ video' !! "code" = Some (VStr "h1").
Proof.
  assert (∃ key, key ≠ "id"
                 ∧ is_Some (({[ "id" := VNum 1; "progress" := VNum 7 ]} : row)
                              !! key)) as Hnamed
    by (exists "progress"; split; [done|by eexists]).
  assert (∀ key, is_Some (({[ "id" := VNum 1; "progress" := VNum 7 ]} : row)
                            !! key) →
                 key ∈ videoDao.columns) as Hcolumns.
  { intros key [v Hv].
    destruct (decide (key = "id")) as [->|Hid]; [listed|].
    rewrite lookup_insert_ne in Hv by done.
    destruct (decide (key = "progress")) as [->|Hprogress]; [listed|].
    by rewrite lookup_singleton_ne in Hv. }
  destruct (proj1 (update_merges {[ "id" := VNum 1; "progress" := VNum 7 ]}
                     (table pending_job) Hnamed Hcolumns)
              (job 1 "pending" 100 (VStr "a1.wav") (VStr "h1") (VStr "submitted")))
    as (video' & Hsel & _ & Hkeys); [reflexivity|].
  exists video'. split; [exact Hsel|].
  split; [by rewrite Hkeys|by rewrite Hkeys].
Defined.

End dao_round_trips.

(** ** Statistics and queue positions *)

Section queue_views.
Implicit Types (r video patch : row) (tbl : list row) (id : value).

Lemma selectByStatus_cons status (r : row) tbl :
  length (videoDao.selectByStatus status (r :: tbl))
  = ((if decide (get r "status" = VStr status) then 1 else 0)
     + length (videoDao.selectByStatus status tbl))%nat.
Proof.
  unfold videoDao.selectByStatus. rewrite filter_cons. by case_decide.
Qed.

Lemma total_cons (r : row) tbl :
  taskService.total (taskService.getTaskStats (r :: tbl))
  = ((if decide (get r "status"
                   ∈ [VStr "pending"; VStr "processing"; VStr "waiting";
                      VStr "completed"; VStr "failed"; VStr "draft"])
      then 1 else 0)
     + taskService.total (taskService.getTaskStats tbl))%nat.
Proof.
  unfold taskService.total, taskService.getTaskStats.
  cbn [fmap list_fmap foldl snd].
  rewrite !selectByStatus_cons.
  generalize (length (videoDao.selectByStatus "pending" tbl))
    (length (videoDao.selectByStatus "processing" tbl))
    (length (videoDao.selectByStatus "waiting" tbl))
    (length (videoDao.selectByStatus "completed" tbl))
    (length (videoDao.selectByStatus "failed" tbl))
    (length (videoDao.selectByStatus "draft" tbl)).
  intros n1 n2 n3 n4 n5 n6.
  destruct (decide (get r "status" ∈ _)) as [Hin|Hout].
  - apply list_elem_of_In in Hin. simpl in Hin.
    repeat (destruct Hin as [<-|Hin];
            [repeat case_decide; try congruence; lia|]).
    done.
  - repeat case_decide; try lia;
      exfalso; apply Hout;
      match goal with H : get r "status" = _ |- _ => rewrite H end; listed.
Qed.

(** The total of the statistics is the number of rows whose status is one
    of the six known ones: no such row is counted twice, and a row in any
    other status is not counted. *)
Theorem stats_total_counts_known tbl :
  taskService.total (taskService.getTaskStats tbl)
  = length (filter (λ r, get r "status"
                           ∈ [VStr "pending"; VStr "processing"; VStr "waiting";
                              VStr "completed"; VStr "failed"; VStr "draft"])
              tbl).
Proof.
  induction tbl as [|r tbl IH]; [reflexivity|].
  rewrite total_cons, IH, filter_cons. by case_decide.
Qed.


Lemma selectByStatus_update_away status patch tbl status' :
  patch !! "status" = Some (VStr status') → status' ≠ status →
  videoDao.selectByStatus status (videoDao.update patch tbl)
  = filter (λ r, key_of (get r "id") ≠ key_of (get patch "id"))
      (videoDao.selectByStatus status tbl).
Proof.
  intros Hpatch Hne. unfold videoDao.selectByStatus, videoDao.update.
  induction tbl as [|r tbl IH]; [reflexivity|].
  rewrite fmap_cons. case_decide as Hid.
  - rewrite filter_cons_False.
    + rewrite IH. rewrite (filter_cons _ r). case_decide; [|reflexivity].
      by rewrite filter_cons_False by (intros Hn; by apply Hn).
    + rewrite get_union, lookup_delete_ne, Hpatch by done. simpl. congruence.
  - rewrite !(filter_cons _ r). case_decide.
    + rewrite filter_cons_True by done. by rewrite IH.
    + exact IH.
Qed.

Lemma selectByStatus_remove status id tbl :
  videoDao.selectByStatus status (videoDao.remove id tbl)
  = filter (λ r, key_of (get r "id") ≠ key_of id) (videoDao.selectByStatus status tbl).
Proof.
  unfold videoDao.selectByStatus, videoDao.remove.
  rewrite !list_filter_filter. apply list_filter_iff. tauto.
Qed.

Lemma selectByStatus_primary_key status tbl :
  primary_key tbl →
  NoDup ((λ r, key_of (get r "id")) <$> videoDao.selectByStatus status tbl).
Proof.
  unfold primary_key. intros Hkey.
  assert (((λ r, key_of (get r "id")) <$> videoDao.selectByStatus status tbl)
            `sublist_of` ((λ r, key_of (get r "id")) <$> tbl)) as Hsub.
  { apply fmap_sublist. unfold videoDao.selectByStatus. apply sublist_filter. }
  by eapply sublist_NoDup.
Qed.

Lemma selectByStatus_ids status tbl :
  primary_key tbl →
  NoDup ((λ r, get r "id") <$> videoDao.selectByStatus status tbl).
Proof.
  intros Hkey%(selectByStatus_primary_key status).
  apply (NoDup_fmap_1 key_of). by rewrite <- list_fmap_compose.
Qed.

Lemma queue_tail_ids status tbl first rest :
  primary_key tbl →
  videoDao.selectByStatus status tbl = first :: rest →
  filter (λ r, key_of (get r "id") ≠ key_of (get first "id")) (first :: rest) = rest.
Proof.
  intros Hkey Hqueue.
  pose proof (selectByStatus_primary_key status tbl Hkey) as Hnodup.
  rewrite Hqueue, fmap_cons in Hnodup.
  apply NoDup_cons in Hnodup as [Hfresh _].
  rewrite filter_cons_False by (intros Hn; by apply Hn).
  clear Hqueue Hkey.
  induction rest as [|r rest IH]; [reflexivity|].
  rewrite fmap_cons in Hfresh. apply not_elem_of_cons in Hfresh as [Hr Hrest].
  rewrite filter_cons_True by congruence. f_equal. by apply IH.
Qed.

Lemma getWaitingTasks_entry tbl index r :
  videoDao.selectByStatus "waiting" tbl !! index = Some r →
  taskService.getWaitingTasks tbl !! index
  = Some (<["totalInQueue" :=
              VNum (Z.of_nat (length (videoDao.selectByStatus "waiting" tbl)))]>
            (<["queuePosition" := VNum (Z.of_nat index + 1)]> r)).
Proof.
  intros Hr. unfold taskService.getWaitingTasks.
  by rewrite list_lookup_imap, Hr.
Qed.

Lemma entry_fields r (total position : value) :
  get (<["totalInQueue" := total]> (<["queuePosition" := position]> r)) "id"
  = get r "id"
  ∧ get (<["totalInQueue" := total]> (<["queuePosition" := position]> r))
      "queuePosition" = position
  ∧ get (<["totalInQueue" := total]> (<["queuePosition" := position]> r))
      "totalInQueue" = total.
Proof.
  unfold get. split_and!.
  - by rewrite !lookup_insert_ne by done.
  - rewrite lookup_insert_ne by done. by rewrite lookup_insert_eq.
  - by rewrite lookup_insert_eq.
Qed.

(** When the head of the waiting queue leaves it, because an update moves
    it to another status or because it is deleted, the waiting jobs behind
    it keep their order and each moves up by exactly one position, out of
    one fewer. *)
Theorem head_leaving_shifts_queue tbl first rest tbl' :
  primary_key tbl →
  videoDao.selectByStatus "waiting" tbl = first :: rest →
  ((∃ patch status,
      get patch "id" = get first "id"
      ∧ patch !! "status" = Some (VStr status) ∧ status ≠ "waiting"
      ∧ tbl' = videoDao.update patch tbl)
   ∨ tbl' = videoDao.remove (get first "id") tbl) →
  videoDao.selectByStatus "waiting" tbl' = rest
  ∧ ∀ index r,
      rest !! index = Some r →
      ∃ before after,
        taskService.getWaitingTasks tbl !! S index = Some before
        ∧ taskService.getWaitingTasks tbl' !! index = Some after
        ∧ get before "id" = get r "id" ∧ get after "id" = get r "id"
        ∧ get before "queuePosition" = VNum (Z.of_nat index + 2)
        ∧ get after "queuePosition" = VNum (Z.of_nat index + 1)
        ∧ get before "totalInQueue" = VNum (Z.of_nat (length rest) + 1)
        ∧ get after "totalInQueue" = VNum (Z.of_nat (length rest)).
Proof.
  intros Hkey Hqueue Hleave.
  assert (videoDao.selectByStatus "waiting" tbl' = rest) as Hrest.
  { destruct Hleave as [(patch & status & Hid & Hst & Hne & ->)| ->].
    - rewrite (selectByStatus_update_away _ _ _ status) by done.
      rewrite Hqueue, Hid. by eapply queue_tail_ids.
    - rewrite selectByStatus_remove, Hqueue. by eapply queue_tail_ids. }
  split; [exact Hrest|]. intros index r Hr.
  eexists _, _. split; [|split].
  - apply getWaitingTasks_entry. rewrite Hqueue. exact Hr.
  - apply getWaitingTasks_entry. rewrite Hrest. exact Hr.
  - rewrite Hqueue, Hrest.
    destruct (entry_fields r (VNum (Z.of_nat (length (first :: rest))))
                (VNum (Z.of_nat (S index) + 1))) as (-> & -> & ->).
    destruct (entry_fields r (VNum (Z.of_nat (length rest)))
                (VNum (Z.of_nat index + 1))) as (-> & -> & ->).
    split_and!; try reflexivity; f_equal; simpl length; lia.
Qed.

Lemma head_leaving_shifts_queue_witness :
  videoDao.selectByStatus "waiting"
    (videoDao.update {[ "id" := VNum 1; "status" := VStr "processing" ]}
       same_millisecond)
  = [ job 2 "waiting" 100 VNull VNull VNull ]
  ∧ ∀ index r,
      [ job 2 "waiting" 100 VNull VNull VNull ] !! index = Some r →
      ∃ before after,
        taskService.getWaitingTasks same_millisecond !! S index = Some before
        ∧ taskService.getWaitingTasks
            (videoDao.update {[ "id" := VNum 1; "status" := VStr "processing" ]}
               same_millisecond) !! index
          = Some after
        ∧ get before "id" = get r "id" ∧ get after "id" = get r "id"
        ∧ get before "queuePosition" = VNum (Z.of_nat index + 2)
        ∧ get after "queuePosition" = VNum (Z.of_nat index + 1)
        ∧ get before "totalInQueue" = VNum (Z.of_nat 1 + 1)
        ∧ get after "totalInQueue" = VNum (Z.of_nat 1).
Proof.
  apply (head_leaving_shifts_queue same_millisecond
           (job 1 "waiting" 100 VNull VNull VNull)).
  - unfold primary_key. decided.
  - reflexivity.
  - left. exists {[ "id" := VNum 1; "status" := VStr "processing" ]}, "processing".
    split_and!; try reflexivity. discriminate.
Defined.

Lemma head_filter_unique {A B} `{EqDecision B} (f : A → B) (l : list A)
    (index : nat) (x : A) (key : B) :
  NoDup (f <$> l) → l !! index = Some x → f x = key →
  head (filter (λ y, f y = key) l) = Some x.
Proof.
  intros Hnodup Hx <-. revert index Hnodup Hx.
  induction l as [|y l IH]; intros index Hnodup Hx;
    [by rewrite lookup_nil in Hx|].
  rewrite fmap_cons in Hnodup. apply NoDup_cons in Hnodup as [Hfresh Hnodup].
  destruct index as [|index]; simpl in Hx.
  - injection Hx as ->. by rewrite filter_cons_True.
  - rewrite filter_cons_False; [by eapply IH|].
    intros Heq. apply Hfresh. rewrite Heq.
    apply list_elem_of_fmap. exists x. split; [done|].
    by eapply list_elem_of_lookup_2.
Qed.

Lemma getWaitingTasks_ids tbl :
  (λ t, get t "id") <$> taskService.getWaitingTasks tbl
  = (λ r, get r "id") <$> videoDao.selectByStatus "waiting" tbl.
Proof.
  apply list_eq. intros index. rewrite !list_lookup_fmap.
  destruct (videoDao.selectByStatus "waiting" tbl !! index) as [r|] eqn:Hr.
  - rewrite (getWaitingTasks_entry _ _ _ Hr). simpl. f_equal.
    unfold get. by rewrite !lookup_insert_ne by done.
  - unfold taskService.getWaitingTasks. by rewrite list_lookup_imap, Hr.
Qed.

(** The details of a job: none for an id that no job has; for the waiting
    job at a given place among the waiting rows, its position is that place
    counted from 1 and the total is the number of waiting rows; a job that
    is not waiting has no position. *)
Theorem getTaskDetails_position tbl :
  primary_key tbl →
  (∀ index r,
     videoDao.selectByStatus "waiting" tbl !! index = Some r →
     ∃ result,
       taskService.getTaskDetails (get r "id") tbl = Some result
       ∧ result !! "queuePosition" = Some (VNum (Z.of_nat index + 1))
       ∧ result !! "totalInQueue"
         = Some (VNum (Z.of_nat (length (videoDao.selectByStatus "waiting" tbl))))
       ∧ result !! "status" = Some (VStr "waiting")
       ∧ (1 ≤ Z.of_nat index + 1
            ≤ Z.of_nat (length (videoDao.selectByStatus "waiting" tbl)))%Z)
  ∧ (∀ taskId v,
       videoDao.selectByID taskId tbl = Some v →
       get v "status" ≠ VStr "waiting" →
       ∃ result,
         taskService.getTaskDetails taskId tbl = Some result
         ∧ result !! "queuePosition" = None
         ∧ result !! "status" = Some (get v "status")
         ∧ result !! "message" = Some (get v "message"))
  ∧ (∀ taskId,
       videoDao.selectByID taskId tbl = None →
       taskService.getTaskDetails taskId tbl = None).
Proof.
  intros Hkey. split_and!.
  - intros index r Hr.
    assert (r ∈ tbl ∧ get r "status" = VStr "waiting") as [Hin Hst].
    { apply list_elem_of_lookup_2 in Hr.
      by apply list_elem_of_filter in Hr as [? ?]. }
    unfold taskService.getTaskDetails.
    rewrite (selectByID_member tbl r Hkey Hin), decide_True by done.
    pose proof (getWaitingTasks_entry tbl index r Hr) as Hentry.
    rewrite (head_filter_unique (λ t, get t "id") _ index _ (get r "id")
               ltac:(rewrite getWaitingTasks_ids;
                     by apply selectByStatus_ids)
               Hentry (proj1 (entry_fields r _ _))).
    destruct (entry_fields r
                (VNum (Z.of_nat (length (videoDao.selectByStatus "waiting" tbl))))
                (VNum (Z.of_nat index + 1))) as (_ & -> & ->).
    eexists. split; [reflexivity|].
    rewrite lookup_insert_ne by done.
    rewrite !lookup_insert_eq, !lookup_insert_ne by done.
    split_and!; try reflexivity.
    + simpl. by rewrite Hst.
    + lia.
    + apply lookup_lt_Some in Hr. lia.
  - intros taskId v Hsel Hst. unfold taskService.getTaskDetails.
    rewrite Hsel, decide_False by done. eexists. split_and!; reflexivity.
  - intros taskId Hsel. unfold taskService.getTaskDetails. by rewrite Hsel.
Qed.

Lemma getTaskDetails_position_witness :
  (∃ result,
     taskService.getTaskDetails (VNum 2) same_millisecond = Some result
     ∧ result !! "queuePosition" = Some (VNum 2)
     ∧ result !! "totalInQueue" = Some (VNum 2))
  ∧ (∃ result,
       taskService.getTaskDetails (VNum 1) (table pending_job) = Some result
       ∧ result !! "queuePosition" = None)
  ∧ taskService.getTaskDetails (VNum 9) same_millisecond = None.
Proof.
  assert (primary_key same_millisecond) as Hkey1
    by (unfold primary_key; decided).
  assert (primary_key (table pending_job)) as Hkey2
    by (unfold primary_key; decided).
  split_and!.
  - destruct (proj1 (getTaskDetails_position same_millisecond Hkey1) 1%nat
                (job 2 "waiting" 100 VNull VNull VNull))
      as (result & Hres & Hpos & Htot & _); [reflexivity|].
    exists result. split_and!; assumption.
  - destruct (proj1 (proj2 (getTaskDetails_position (table pending_job) Hkey2))
                (VNum 1)
                (job 1 "pending" 100 (VStr "a1.wav") (VStr "h1") (VStr "submitted")))
      as (result & Hres & Hpos & _); [reflexivity | discriminate |].
    exists result. by split.
  - apply (proj2 (proj2 (getTaskDetails_position same_millisecond Hkey1))).
    reflexivity.
Defined.

End queue_views.

(** ** Synthesis, polling and the tick, job by job *)

Section job_by_job.
Implicit Types (r video patch : row) (tbl : list row) (id : value) (s : runtime)
  (g : gateways).

Ltac run_case :=
  match goal with
  | |- context [match modelDao_selectByID ?g ?x with _ => _ end] =>
      destruct (modelDao_selectByID g x)
  | |- context [if truthy ?x then _ else _] => destruct (truthy x)
  | |- context [match voiceDao_selectByID ?g ?x with _ => _ end] =>
      destruct (voiceDao_selectByID g x)
  | |- context [makeAudioApi ?g ?x] => destruct (makeAudioApi g x)
  | |- context [if development ?g then _ else _] => destruct (development g)
  | |- context [makeVideoApi ?g ?x] => destruct (makeVideoApi g x)
  | |- context [decide (get ?r "code" = ?v)] => destruct (decide (get r "code" = v))
  end.

Ltac any_write :=
  rewrite ?updateStatus_update;
  first
    [ eapply writes_update;
        [ apply same_elsewhere_update_id; reflexivity
        | reflexivity | reflexivity | listed ]
    | eapply writes_update;
        [ apply same_elsewhere_refl | reflexivity | reflexivity | listed ] ].

Lemma synthesizeVideo_writes_any g id s :
  writes id ["processing"; "pending"; "failed"] (table s)
    (table (videoService.synthesizeVideo g id s).2)
  ∧ immediateQueue (videoService.synthesizeVideo g id s).2 = immediateQueue s.
Proof.
  unfold videoService.synthesizeVideo, voiceService.makeAudioForVideo,
    voiceService.makeAudio, videoService.callFace2FaceAPI.
  unfold try_catch, mbind, js_bind, query, exec, throw, await, mret, js_ret.
  cbn [table immediateQueue unhandledRejections fst snd].
  destruct (videoDao.selectByID id _) as [video|];
    cbn [table immediateQueue unhandledRejections fst snd].
  2: { split; [any_write|reflexivity]. }
  repeat (run_case; cbn [table immediateQueue unhandledRejections fst snd]).
  all: split; [any_write|reflexivity].
Qed.

(** Whatever the collaborators answer, and whether or not they have
    answered yet, [synthesizeVideo] changes no job but the one it is given,
    adds and removes no row, queues no callback, and leaves that job
    processing, pending or failed. *)
Theorem synthesizeVideo_touches_one_job g id s :
  (∀ id', key_of id' ≠ key_of id →
     videoDao.selectByID id' (table (videoService.synthesizeVideo g id s).2)
     = videoDao.selectByID id' (table s))
  ∧ (∀ video',
       videoDao.selectByID id (table (videoService.synthesizeVideo g id s).2)
       = Some video' →
       get video' "status"
       ∈ [VStr "processing"; VStr "pending"; VStr "failed"])
  ∧ length (table (videoService.synthesizeVideo g id s).2) = length (table s)
  ∧ immediateQueue (videoService.synthesizeVideo g id s).2 = immediateQueue s.
Proof.
  destruct (synthesizeVideo_writes_any g id s) as [Hw Hq].
  split_and!; [| | |exact Hq].
  - intros id' Hne. apply (same_elsewhere_select id); [apply Hw|exact Hne].
  - intros video' Hsel.
    destruct (writes_select_status _ _ _ _ _ Hw Hsel) as (status & Hin & ->).
    apply list_elem_of_In in Hin. simpl in Hin.
    repeat (destruct Hin as [<-|Hin]; [listed|]). done.
  - symmetry. destruct Hw as [Hsame _]. by eapply Forall2_length.
Qed.

(** What [synthesizeVideo] leaves behind when it throws. *)
Lemma synthesizeVideo_thrown g id s video :
  videoDao.selectByID id (table s) = Some video →
  match videoService.synthesizeVideo g id s with
  | (Thrown e, s') =>
      ∃ video',
        videoDao.selectByID id (table s') = Some video'
        ∧ video' !! "status" = Some (VStr "failed")
        ∧ video' !! "message" = Some (VStr e)
        ∧ video' !! "progress" = Some (VNum 0)
        ∧ video' !! "file_path" = Some (VStr EmptyString)
  | _ => True
  end.
Proof.
  intros Hsel.
  unfold videoService.synthesizeVideo, voiceService.makeAudioForVideo,
    voiceService.makeAudio, videoService.callFace2FaceAPI.
  unfold try_catch, mbind, js_bind, query, exec, throw, await, mret, js_ret.
  cbn [table immediateQueue unhandledRejections fst snd].
  erewrite selectByID_update_same by (reflexivity || exact Hsel).
  repeat (run_case; cbn [table immediateQueue unhandledRejections fst snd]).
  all: try exact I.
  all: eexists; (split;
         [ apply selectByID_updateStatus;
           eapply selectByID_update_same; [reflexivity|exact Hsel] |]).
  all: split_and!; apply lookup_union_Some_l; reflexivity.
Qed.

(** Every exception that leaves [synthesizeVideo] on an existing job has
    been recorded on the job first: the job is failed, its message is the
    message of the exception, its progress is 0 and its file path empty. *)
Theorem synthesizeVideo_failure_is_recorded g id s video e :
  videoDao.selectByID id (table s) = Some video →
  (videoService.synthesizeVideo g id s).1 = Thrown e →
  ∃ video',
    videoDao.selectByID id (table (videoService.synthesizeVideo g id s).2)
    = Some video'
    ∧ video' !! "status" = Some (VStr "failed")
    ∧ video' !! "message" = Some (VStr e)
    ∧ video' !! "progress" = Some (VNum 0)
    ∧ video' !! "file_path" = Some (VStr EmptyString).
Proof.
  intros Hsel Hthrown.
  pose proof (synthesizeVideo_thrown g id s video Hsel) as Hpost.
  destruct (videoService.synthesizeVideo g id s) as [c s'].
  simpl in Hthrown. subst c. exact Hpost.
Qed.

Lemma synthesizeVideo_failure_is_recorded_witness :
  ∃ video',
    videoDao.selectByID (VNum 1)
      (table (videoService.synthesizeVideo tts_down (VNum 1)
                waiting_without_audio).2)
    = Some video'
    ∧ video' !! "status" = Some (VStr "failed")
    ∧ video' !! "message"
      = Some (VStr "TTS service error: connect ECONNREFUSED")
    ∧ video' !! "progress" = Some (VNum 0)
    ∧ video' !! "file_path" = Some (VStr EmptyString).
Proof.
  apply (synthesizeVideo_failure_is_recorded tts_down (VNum 1)
           waiting_without_audio (job 1 "waiting" 100 VNull VNull VNull));
    reflexivity.
Defined.

(** On an id that no job has, [synthesizeVideo] throws and the table is as
    it was. *)
Theorem synthesizeVideo_missing_job g id s :
  videoDao.selectByID id (table s) = None →
  (videoService.synthesizeVideo g id s).1
  = Thrown ("Video not found: " +:+ to_string id)
  ∧ table (videoService.synthesizeVideo g id s).2 = table s.
Proof.
  intros Hsel.
  unfold videoService.synthesizeVideo.
  unfold try_catch, mbind, js_bind, query, exec, throw, await, mret, js_ret.
  cbn [table immediateQueue unhandledRejections fst snd].
  rewrite selectByID_update_none by (reflexivity || exact Hsel).
  cbn [table immediateQueue unhandledRejections fst snd].
  split; [reflexivity|].
  rewrite updateStatus_update.
  rewrite (update_absent _ (videoDao.update _ _)).
  - by apply update_absent.
  - apply selectByID_update_none; [reflexivity|exact Hsel].
Qed.

Lemma synthesizeVideo_missing_job_witness :
  (videoService.synthesizeVideo all_well (VNum 7) pending_job).1
  = Thrown "Video not found: 7"
  ∧ table (videoService.synthesizeVideo all_well (VNum 7) pending_job).2
    = table pending_job.
Proof.
  apply (synthesizeVideo_missing_job all_well (VNum 7) pending_job).
  reflexivity.
Defined.

End job_by_job.

Section scheduler_steps.
Implicit Types (r video model patch : row) (tbl : list row) (id : value)
  (s : runtime) (g : gateways).



(** A job that has its audio is submitted with it: the voice table and the
    TTS service play no part in the outcome. *)
Theorem existing_audio_is_reused g g' videoId s video :
  videoDao.selectByID videoId (table s) = Some video →
  truthy (get video "audio_path") = true →
  development g' = development g →
  modelDao_selectByID g' = modelDao_selectByID g →
  task_uuid g' = task_uuid g →
  JSON_stringify g' = JSON_stringify g →
  makeVideoApi g' = makeVideoApi g →
  videoService.synthesizeVideo g' videoId s
  = videoService.synthesizeVideo g videoId s.
Proof.
  intros Hsel Haudio Hdev Hmodel Huuid Hjson Hsubmit.
  unfold videoService.synthesizeVideo, videoService.callFace2FaceAPI.
  unfold try_catch, mbind, js_bind, query, exec, throw, await, mret, js_ret.
  cbn [table immediateQueue unhandledRejections fst snd].
  erewrite selectByID_update_same by (reflexivity || exact Hsel).
  rewrite !get_processing_patch by not_listed.
  rewrite Haudio, Hdev, Hmodel, Huuid, Hjson, Hsubmit.
  reflexivity.
Qed.

Lemma existing_audio_is_reused_witness :
  videoService.synthesizeVideo tts_down (VNum 1) waiting_with_audio
  = videoService.synthesizeVideo all_well (VNum 1) waiting_with_audio.
Proof.
  apply (existing_audio_is_reused all_well tts_down (VNum 1) waiting_with_audio
           (job 1 "waiting" 100 (VStr "a1.wav") VNull VNull));
    reflexivity.
Defined.

Lemma runImmediate_same_elsewhere g id s :
  same_elsewhere id (table s) (table (runImmediate g id s))
  ∧ immediateQueue (runImmediate g id s) = immediateQueue s.
Proof.
  destruct (synthesizeVideo_writes_any g id s) as [[Hsame _] Hq].
  unfold runImmediate.
  by destruct (videoService.synthesizeVideo g id s) as [[?|?|] ?].
Qed.

Lemma primary_key_unique tbl r v :
  primary_key tbl → r ∈ tbl → v ∈ tbl →
  key_of (get r "id") = key_of (get v "id") → r = v.
Proof.
  intros Hkey Hr Hv Hid.
  pose proof (selectByID_member tbl r Hkey Hr) as Hselr.
  pose proof (selectByID_member tbl v Hkey Hv) as Hselv.
  unfold videoDao.selectByID in Hselr, Hselv.
  rewrite Hid in Hselr. congruence.
Qed.

(** A tick changes at most one job, the first pending one or else the first
    waiting one: every job that is neither pending nor waiting, a completed
    one in particular, is exactly as it was after the tick, whatever the
    collaborators answer. *)
Theorem tick_leaves_settled_jobs g gi s r :
  primary_key (table s) →
  immediateQueue s = [] →
  r ∈ table s →
  get r "status" ≠ VStr "pending" →
  get r "status" ≠ VStr "waiting" →
  videoDao.selectByID (get r "id") (table (handle (Tick g gi) s)) = Some r.
Proof.
  intros Hkey Hqueue Hin Hnp Hnw.
  transitivity (videoDao.selectByID (get r "id") (table s));
    [|by apply selectByID_member].
  unfold handle, drain. rewrite intervalCallback_state.
  destruct (videoDao.findFirstByStatus "pending" (table s)) as [video|]
    eqn:Hpending.
  - rewrite (processTaskQueue_polls g s video Hpending).
    destruct (processPendingVideos_polls g s video Hpending)
      as (_ & Htable & Hqueue' & _).
    rewrite Hqueue', Hqueue. simpl.
    destruct Htable as [->|[Hsame _]]; [reflexivity|].
    apply (same_elsewhere_select (get video "id")); [exact Hsame|].
    intros Hid. apply findFirstByStatus_found in Hpending as [Hv Hst].
    rewrite (primary_key_unique _ _ _ Hkey Hin Hv Hid) in Hnp. done.
  - destruct (videoDao.findFirstByStatus "waiting" (table s)) as [first|]
      eqn:Hwaiting.
    + rewrite (processTaskQueue_promotes g s first Hpending Hwaiting).
      rewrite Hqueue. cbn [table immediateQueue unhandledRejections app].
      cbn [runImmediates].
      set (s0 := Runtime (table s) [] (unhandledRejections s)).
      destruct (runImmediate_same_elsewhere (gi 0%nat) (get first "id") s0)
        as [Hs1 _].
      destruct (runImmediate_same_elsewhere (gi 1%nat) (get first "id")
                  (runImmediate (gi 0%nat) (get first "id") s0)) as [Hs2 _].
      apply (same_elsewhere_select (get first "id")).
      * eapply same_elsewhere_trans; [exact Hs1|exact Hs2].
      * intros Hid. apply findFirstByStatus_found in Hwaiting as [Hv Hst].
        rewrite (primary_key_unique _ _ _ Hkey Hin Hv Hid) in Hnw. done.
    + rewrite (processTaskQueue_idle g s Hpending Hwaiting).
      cbn [snd]. by rewrite Hqueue.
Qed.

Lemma tick_leaves_settled_jobs_witness :
  videoDao.selectByID (VNum 1)
    (table (handle (Tick all_well (λ _, all_well)) completed_job))
  = Some (job 1 "completed" 100 (VStr "a1.wav") (VStr "h1") (VStr "done")).
Proof.
  apply (tick_leaves_settled_jobs all_well (λ _, all_well) completed_job
           (job 1 "completed" 100 (VStr "a1.wav") (VStr "h1") (VStr "done"))).
  - unfold primary_key. decided.
  - reflexivity.
  - left.
  - discriminate.
  - discriminate.
Defined.

(** No failure of a gateway reaches [processTaskQueue]: it never throws and
    never reports [success: false].  It resolves with [success: true] and
    the id of the pending job it polled, or [null] when none is pending; or
    it is still waiting for the answer to that poll. *)
Theorem processTaskQueue_reports_success g s :
  (taskService.processTaskQueue g s).1
  = Returned (taskService.QueueResult true
                (from_option (λ v, get v "id") VNull
                   (videoDao.findFirstByStatus "pending" (table s)))
                None)
  ∨ ((taskService.processTaskQueue g s).1 = Awaiting
     ∧ videoDao.findFirstByStatus "pending" (table s) ≠ None).
Proof.
  destruct (videoDao.findFirstByStatus "pending" (table s)) as [video|]
    eqn:Hpending.
  - destruct (processPendingVideos_polls g s video Hpending) as (Hc & _).
    unfold taskService.processTaskQueue.
    unfold try_catch, mbind, js_bind, mret, js_ret.
    destruct (videoService.processPendingVideos g s) as [c s1].
    simpl in Hc. destruct Hc as [-> | ->]; [by left|by right].
  - left. destruct (videoDao.findFirstByStatus "waiting" (table s)) as [first|]
      eqn:Hwaiting.
    + by rewrite (processTaskQueue_promotes g s first).
    + by rewrite processTaskQueue_idle.
Qed.

(** A poll changes no job but the first pending one and queues nothing;
    when no job is pending it changes no job at all and queues the
    synthesis of the first waiting job, if there is one. *)
Theorem poll_touches_only_first_pending g s :
  (∀ video,
     videoDao.findFirstByStatus "pending" (table s) = Some video →
     (∀ id, key_of id ≠ key_of (get video "id") →
        videoDao.selectByID id (table (videoService.processPendingVideos g s).2)
        = videoDao.selectByID id (table s))
     ∧ length (table (videoService.processPendingVideos g s).2)
       = length (table s)
     ∧ immediateQueue (videoService.processPendingVideos g s).2
       = immediateQueue s)
  ∧ (videoDao.findFirstByStatus "pending" (table s) = None →
     (videoService.processPendingVideos g s).1 = Returned None
     ∧ table (videoService.processPendingVideos g s).2 = table s
     ∧ immediateQueue (videoService.processPendingVideos g s).2
       = immediateQueue s
         ++ from_option (λ first, [get first "id"]) []
              (videoDao.findFirstByStatus "waiting" (table s))).
Proof.
  split.
  - intros video Hpending.
    destruct (processPendingVideos_polls g s video Hpending)
      as (_ & Htable & Hqueue & _).
    split_and!; [| |exact Hqueue].
    + intros id Hne. destruct Htable as [->|[Hsame _]]; [reflexivity|].
      by apply (same_elsewhere_select (get video "id")).
    + destruct Htable as [->|[Hsame _]]; [reflexivity|].
      symmetry. by eapply Forall2_length.
  - intros Hpending.
    unfold videoService.processPendingVideos,
      videoService.processNextWaitingVideo.
    js_step. rewrite Hpending. simpl.
    destruct (videoDao.findFirstByStatus "waiting" (table s)); simpl.
    + done.
    + by rewrite app_nil_r.
Qed.

Lemma poll_touches_only_first_pending_witness :
  (∀ id, key_of id ≠ key_of (VNum 1) →
     videoDao.selectByID id
       (table (videoService.processPendingVideos all_well pending_job).2)
     = videoDao.selectByID id (table pending_job))
  ∧ (videoService.processPendingVideos all_well
       (Runtime same_millisecond [] [])).1 = Returned None
  ∧ immediateQueue
      (videoService.processPendingVideos all_well
         (Runtime same_millisecond [] [])).2
    = [VNum 1].
Proof.
  split; [|split].
  - apply (proj1 (proj1 (poll_touches_only_first_pending all_well pending_job)
                    (job 1 "pending" 100 (VStr "a1.wav") (VStr "h1")
                       (VStr "submitted")) eq_refl)).
  - apply (proj1 (proj2 (poll_touches_only_first_pending all_well
                           (Runtime same_millisecond [] [])) eq_refl)).
  - apply (proj2 (proj2 (proj2 (poll_touches_only_first_pending all_well
                                  (Runtime same_millisecond [] [])) eq_refl))).
Defined.

(** Cancel, then retry, as the task routes call them with the id of the
    URL: a job that was waiting, processing or pending is back in the queue
    with progress 0 and the retry notice, and every other field is as it
    was before the cancel. *)
Theorem cancel_then_retry taskId s video :
  integer_id taskId →
  videoDao.selectByID taskId (table s) = Some video →
  get video "status" ∈ [VStr "waiting"; VStr "processing"; VStr "pending"] →
  (taskService.cancelTask taskId s).1 = Returned true
  ∧ (taskService.retryFailedTask taskId (taskService.cancelTask taskId s).2).1
    = Returned true
  ∧ ∃ video',
      videoDao.selectByID taskId
        (table (taskService.retryFailedTask taskId
                  (taskService.cancelTask taskId s).2).2)
      = Some video'
      ∧ video' !! "status" = Some (VStr "waiting")
      ∧ video' !! "message" = Some (VStr "Retrying task...")
      ∧ video' !! "progress" = Some (VNum 0)
      ∧ ∀ key, key ∉ queue_fields → video' !! key = video !! key.
Proof.
  intros Hint Hsel Hst.
  rewrite (cancelTask_accepts taskId s video Hsel Hst). cbn [fst snd].
  set (s1 := Runtime _ _ _).
  assert (videoDao.selectByID taskId (table s1)
          = Some (delete "id"
                    ({[ "id" := taskId; "status" := VStr "failed";
                        "message" := VStr "Task cancelled by user";
                        "progress" := VNum 0 ]} : row) ∪ video)) as Hsel1.
  { unfold s1. cbn [table].
    eapply selectByID_update_same; [reflexivity|exact Hsel]. }
  split; [reflexivity|].
  erewrite (retryFailedTask_accepts taskId s1); [|exact Hsel1|].
  2: { rewrite get_union. reflexivity. }
  cbn [fst snd table]. split; [reflexivity|]. eexists. split.
  { eapply selectByID_update_same; [reflexivity|exact Hsel1]. }
  split_and!; try assigned.
  intros key Hkey. by rewrite !queue_patch_frame.
Qed.

Lemma cancel_then_retry_witness :
  (taskService.cancelTask (VStr "1") pending_job).1 = Returned true
  ∧ (taskService.retryFailedTask (VStr "1")
       (taskService.cancelTask (VStr "1") pending_job).2).1 = Returned true
  ∧ ∃ video',
      videoDao.selectByID (VStr "1")
        (table (taskService.retryFailedTask (VStr "1")
                  (taskService.cancelTask (VStr "1") pending_job).2).2)
      = Some video'
      ∧ video' !! "status" = Some (VStr "waiting")
      ∧ video' !! "message" = Some (VStr "Retrying task...")
      ∧ video' !! "progress" = Some (VNum 0)
      ∧ ∀ key, key ∉ queue_fields →
          video' !! key
          = job 1 "pending" 100 (VStr "a1.wav") (VStr "h1") (VStr "submitted")
              !! key.
Proof.
  apply (cancel_then_retry (VStr "1") pending_job
           (job 1 "pending" 100 (VStr "a1.wav") (VStr "h1") (VStr "submitted")));
    [by exists 1%Z | reflexivity | listed].
Defined.

End scheduler_steps.

(** ** The background timer *)

Section background_timer.
Import background.

Lemma step_keeps_one_timer (t : timers) (c : command) :
  activeIntervals t = from_option (λ id, [id]) [] (backgroundInterval t) →
  activeIntervals (step t c)
  = from_option (λ id, [id]) [] (backgroundInterval (step t c)).
Proof.
  intros Hinv. destruct t as [[id|] active count ticks];
    simpl in Hinv; subst active; destruct c; try reflexivity.
  simpl. by rewrite filter_cons_False by (intros Hn; by apply Hn).
Qed.

(** Whatever sequence of [initBackgroundProcessing] and [stopBackground]
    calls is made, no two interval timers are ever active at once: the
    active timers are exactly the one the module remembers, if any, so the
    module reports [running] exactly when one timer is active; and the
    queue has been processed at once as many times as timers were
    started. *)
Theorem at_most_one_timer (commands : list command) :
  let t := foldl step initial commands in
  activeIntervals t = from_option (λ id, [id]) [] (backgroundInterval t)
  ∧ (length (activeIntervals t) ≤ 1)%nat
  ∧ (running t = true ↔ length (activeIntervals t) = 1%nat)
  ∧ immediateTicks t = handedOut t.
Proof.
  cut (∀ t0,
         activeIntervals t0
         = from_option (λ id, [id]) [] (backgroundInterval t0)
         ∧ immediateTicks t0 = handedOut t0 →
         let t := foldl step t0 commands in
         activeIntervals t = from_option (λ id, [id]) [] (backgroundInterval t)
         ∧ immediateTicks t = handedOut t).
  { intros Hgen. destruct (Hgen initial (conj eq_refl eq_refl)) as [Hinv Hticks].
    simpl. split; [exact Hinv|]. rewrite Hinv. unfold running.
    destruct (backgroundInterval (foldl step initial commands)); simpl.
    - split_and!; [lia|done|exact Hticks].
    - split_and!; [lia|done|exact Hticks]. }
  induction commands as [|c commands IH]; intros t0 [Hinv Hticks];
    [by split|].
  simpl. apply IH. split; [by apply step_keeps_one_timer|].
  destruct c; simpl.
  - unfold initBackgroundProcessing.
    destruct (backgroundInterval t0); simpl; [done|]. by rewrite Hticks.
  - unfold stopBackground. by destruct (backgroundInterval t0).
Qed.

End background_timer.

(** ** Environment defaults *)

Section environment.
Import envValidation.

Lemma setupDefaults_step_other (env : gmap string string) (entry : string * string)
    (key : string) :
  key ≠ entry.1 →
  (if unset env entry.1 then <[entry.1 := entry.2]> env else env) !! key
  = env !! key.
Proof. intros Hne. destruct (unset env entry.1); [|done]. by rewrite lookup_insert_ne. Qed.

Lemma setupDefaults_step_set (env : gmap string string) (entry : string * string)
    (key : string) :
  unset env key = false →
  (if unset env entry.1 then <[entry.1 := entry.2]> env else env) !! key
  = env !! key.
Proof.
  intros Hset. destruct (decide (key = entry.1)) as [->|Hne].
  - by rewrite Hset.
  - by apply setupDefaults_step_other.
Qed.

Lemma unset_step (env : gmap string string) (entry : string * string)
    (key : string) :
  key ≠ entry.1 ∨ unset env key = false →
  unset (if unset env entry.1 then <[entry.1 := entry.2]> env else env) key
  = unset env key.
Proof.
  intros Hcase. unfold unset at 1 3.
  destruct Hcase as [Hne|Hset].
  - by rewrite setupDefaults_step_other.
  - by rewrite setupDefaults_step_set.
Qed.

Lemma fold_defaults_keeps (l : list (string * string)) (env : gmap string string)
    (key : string) :
  unset env key = false ∨ key ∉ l.*1 →
  foldl (λ env entry,
           if unset env entry.1 then <[entry.1 := entry.2]> env else env)
    env l !! key
  = env !! key.
Proof.
  revert env. induction l as [|entry l IH]; intros env Hcase; [reflexivity|].
  simpl. rewrite IH.
  - destruct Hcase as [Hset|Hout]; [by apply setupDefaults_step_set|].
    apply setupDefaults_step_other. intros ->. apply Hout. simpl. left.
  - destruct Hcase as [Hset|Hout].
    + left. rewrite unset_step; [exact Hset|by right].
    + right. intros Hin. apply Hout. simpl. by right.
Qed.

Lemma fold_defaults_value (l : list (string * string))
    (env : gmap string string) (key value : string) :
  NoDup l.*1 → (key, value) ∈ l →
  foldl (λ env entry,
           if unset env entry.1 then <[entry.1 := entry.2]> env else env)
    env l !! key
  = Some (if unset env key then value else default value (env !! key)).
Proof.
  revert env. induction l as [|entry l IH]; intros env Hnodup Hin;
    [by apply elem_of_nil in Hin|].
  simpl in Hnodup. apply NoDup_cons in Hnodup as [Hfresh Hnodup].
  simpl. apply elem_of_cons in Hin as [<-|Hin].
  - rewrite fold_defaults_keeps by (by right). simpl.
    destruct (unset env key) eqn:Hunset; [by rewrite lookup_insert_eq|].
    unfold unset in Hunset. by destruct (env !! key).
  - assert (key ≠ entry.1) as Hne.
    { intros ->. apply Hfresh. apply list_elem_of_fmap. by exists (entry.1, value). }
    rewrite IH by done.
    rewrite unset_step by (by left).
    by rewrite setupDefaults_step_other.
Qed.

(** After [setupDefaults] each of the six variables is set and not empty:
    a variable that was set and not empty keeps its value, one that was
    unset or empty has its default; every other variable is untouched; and
    running it again changes nothing. *)
Theorem setupDefaults_fills_gaps (env : gmap string string) :
  (∀ key value,
     (key, value) ∈ defaults →
     unset (setupDefaults env) key = false
     ∧ setupDefaults env !! key
       = Some (if unset env key then value else default value (env !! key)))
  ∧ (∀ key, key ∉ defaults.*1 → setupDefaults env !! key = env !! key)
  ∧ setupDefaults (setupDefaults env) = setupDefaults env.
Proof.
  assert (NoDup defaults.*1) as Hnodup by decided.
  assert (∀ key value,
            (key, value) ∈ defaults →
            setupDefaults env !! key
            = Some (if unset env key then value else default value (env !! key)))
    as Hvalue by (intros key value Hin; by apply fold_defaults_value).
  assert (∀ key value, (key, value) ∈ defaults →
                       unset (setupDefaults env) key = false) as Hset.
  { intros key value Hin. unfold unset at 1. rewrite (Hvalue key value Hin).
    unfold unset. destruct (env !! key) as [v|] eqn:Hv; simpl.
    - destruct (String.eqb v EmptyString) eqn:Hempty; [|exact Hempty].
      apply list_elem_of_In in Hin. simpl in Hin.
      repeat (destruct Hin as [[= <- <-]|Hin]; [reflexivity|]). done.
    - apply list_elem_of_In in Hin. simpl in Hin.
      repeat (destruct Hin as [[= <- <-]|Hin]; [reflexivity|]). done. }
  split_and!.
  - intros key value Hin. split; [by eapply Hset|by apply Hvalue].
  - intros key Hout. apply fold_defaults_keeps. by right.
  - apply map_eq. intros key. unfold setupDefaults at 1.
    apply fold_defaults_keeps.
    destruct (decide (key ∈ defaults.*1)) as [Hin|Hout]; [|by right].
    left. apply list_elem_of_fmap in Hin as ([k v] & -> & Hin).
    by eapply Hset.
Qed.

End environment.

(** ** Files of a job *)

Section job_files.
Context (modelDir ttsProductDir : string)
  (path_join : string → value → completion string).
Implicit Types (video : row) (tbl : list row) (disk : gset string) (id : value).

Lemma selectByID_remove id tbl :
  videoDao.selectByID id (videoDao.remove id tbl) = None.
Proof.
  unfold videoDao.selectByID, videoDao.remove.
  rewrite list_filter_filter, filter_none; [reflexivity|].
  apply Forall_forall. intros r _ [? ?]. done.
Qed.

Lemma selectByID_remove_other id id' tbl :
  key_of id' ≠ key_of id →
  videoDao.selectByID id' (videoDao.remove id tbl) = videoDao.selectByID id' tbl.
Proof.
  intros Hne. unfold videoDao.selectByID, videoDao.remove.
  rewrite list_filter_filter. f_equal. apply list_filter_iff.
  intros r. split; [tauto|]. intros Hid. split; [done|congruence].
Qed.

Lemma unlinkIfPresent_returned dir (name : value) disk disk' :
  unlinkIfPresent path_join dir name disk = (Returned tt, disk') →
  disk' ⊆ disk
  ∧ (∀ p, truthy name = true → path_join dir name = Returned p → p ∉ disk')
  ∧ (∀ q, q ∈ disk → q ∉ disk' →
          truthy name = true ∧ path_join dir name = Returned q).
Proof.
  unfold unlinkIfPresent. destruct (truthy name).
  - destruct (path_join dir name) as [p| |]; try discriminate.
    case_decide as Hin; intros [= <-].
    + split_and!; [set_solver| |].
      * intros p' _ [= <-]. set_solver.
      * intros q Hq Hq'. split; [done|]. f_equal.
        destruct (decide (q = p)) as [->|Hne]; [done|]. set_solver.
    + split_and!; [done| |].
      * by intros p' _ [= <-].
      * intros q Hq Hq'. done.
  - intros [= <-]. split_and!; [done| |].
    + intros p Hfalse. discriminate.
    + intros q Hq Hq'. done.
Qed.

Lemma unlinkIfPresent_shrinks dir (name : value) disk :
  (unlinkIfPresent path_join dir name disk).2 ⊆ disk.
Proof.
  unfold unlinkIfPresent. destruct (truthy name); [|done].
  destruct (path_join dir name); [|done|done].
  simpl. case_decide; set_solver.
Qed.

(** Deleting a job, as the delete route calls it with the id of the URL:
    when [deleteVideo] returns, the job is gone from the table and no job
    with another key has changed; its result file and its audio file no
    longer exist, and no other file was removed.  When it throws, the table
    is as it was, and for an id that no job has nothing changes at all.  It
    never creates a file. *)
Theorem deleteVideo_removes_job_and_files videoId tbl disk :
  integer_id videoId →
  (∀ tbl' disk',
     deleteVideo modelDir ttsProductDir path_join videoId (tbl, disk)
     = (Returned true, (tbl', disk')) →
     ∃ video,
       videoDao.selectByID videoId tbl = Some video
       ∧ videoDao.selectByID videoId tbl' = None
       ∧ (∀ id, key_of id ≠ key_of videoId →
                videoDao.selectByID id tbl' = videoDao.selectByID id tbl)
       ∧ (∀ p, truthy (get video "file_path") = true →
               path_join modelDir (get video "file_path") = Returned p →
               p ∉ disk')
       ∧ (∀ p, truthy (get video "audio_path") = true →
               path_join ttsProductDir (get video "audio_path") = Returned p →
               p ∉ disk')
       ∧ (∀ q, q ∈ disk → q ∉ disk' →
               path_join modelDir (get video "file_path") = Returned q
               ∨ path_join ttsProductDir (get video "audio_path") = Returned q))
  ∧ (∀ e st',
       deleteVideo modelDir ttsProductDir path_join videoId (tbl, disk)
       = (Thrown e, st') →
       st'.1 = tbl)
  ∧ (videoDao.selectByID videoId tbl = None →
     deleteVideo modelDir ttsProductDir path_join videoId (tbl, disk)
     = (Thrown ("Video not found: " +:+ to_string videoId), (tbl, disk)))
  ∧ (deleteVideo modelDir ttsProductDir path_join videoId (tbl, disk)).2.2
    ⊆ disk.
Proof.
  intros _. unfold deleteVideo. cbn [fst snd].
  destruct (videoDao.selectByID videoId tbl) as [video|] eqn:Hsel.
  2: { split_and!; try done. by intros e st' [= _ <-]. }
  pose proof (unlinkIfPresent_shrinks modelDir (get video "file_path") disk)
    as Hshrink1.
  destruct (unlinkIfPresent path_join modelDir (get video "file_path") disk)
    as [[[]|e1|] disk1] eqn:Hfirst; cbn [snd] in Hshrink1.
  2: { split_and!; try done. by intros e st' [= _ <-]. }
  2: { split_and!; try done. }
  pose proof (unlinkIfPresent_shrinks ttsProductDir (get video "audio_path")
                disk1) as Hshrink2.
  destruct (unlinkIfPresent path_join ttsProductDir (get video "audio_path")
              disk1) as [[[]|e2|] disk2] eqn:Hsecond; cbn [snd] in Hshrink2.
  2: { split_and!; try done; [by intros e st' [= _ <-]|set_solver]. }
  2: { split_and!; try done. set_solver. }
  split_and!; try done; [|simpl; set_solver].
  intros tbl' disk' [= <- <-]. exists video.
  destruct (unlinkIfPresent_returned _ _ _ _ Hfirst) as (Hsub1 & Hgone1 & Hkept1).
  destruct (unlinkIfPresent_returned _ _ _ _ Hsecond) as (Hsub2 & Hgone2 & Hkept2).
  split_and!; [done|apply selectByID_remove| | | |].
  - intros id Hne. by apply selectByID_remove_other.
  - intros p Ht Hp Hin. apply (Hgone1 p Ht Hp). set_solver.
  - exact Hgone2.
  - intros q Hq Hq'. destruct (decide (q ∈ disk1)) as [Hin1|Hout1].
    + right. by apply Hkept2.
    + left. by apply Hkept1.
Qed.

(** Exporting a job: it succeeds only for a job whose result file exists,
    and then creates the output path and nothing else; when it throws, the
    store is as it was.  The table is never changed. *)
Theorem exportVideo_copies_result videoId outputPath tbl disk :
  (∀ b st',
     exportVideo modelDir path_join videoId outputPath (tbl, disk)
     = (Returned b, st') →
     b = true ∧ st' = (tbl, {[ outputPath ]} ∪ disk)
     ∧ ∃ video p,
         videoDao.selectByID videoId tbl = Some video
         ∧ truthy (get video "file_path") = true
         ∧ path_join modelDir (get video "file_path") = Returned p
         ∧ p ∈ disk)
  ∧ (∀ e st',
       exportVideo modelDir path_join videoId outputPath (tbl, disk)
       = (Thrown e, st') →
       st' = (tbl, disk))
  ∧ (exportVideo modelDir path_join videoId outputPath (tbl, disk)).2.1 = tbl.
Proof.
  unfold exportVideo. cbn [fst snd].
  destruct (videoDao.selectByID videoId tbl) as [video|];
    [|split_and!; [discriminate|by intros e st' [= _ <-]|done]].
  destruct (truthy (get video "file_path")) eqn:Ht;
    [|split_and!; [discriminate|by intros e st' [= _ <-]|done]].
  destruct (path_join modelDir (get video "file_path")) as [p|e0|] eqn:Hp;
    [|split_and!; [discriminate|by intros e st' [= _ <-]|done]
     |split_and!; [discriminate|discriminate|done]].
  case_decide as Hin;
    [|split_and!; [discriminate|by intros e st' [= _ <-]|done]].
  split_and!; [|discriminate|done].
  intros b st' [= <- <-]. split_and!; try done. by exists video, p.
Qed.

End job_files.

(** ** The further properties at sample inputs *)

Lemma synthesizeVideo_touches_one_job_witness :
  videoDao.selectByID (VNum 2)
    (table (videoService.synthesizeVideo tts_slow (VNum 1)
              (Runtime same_millisecond [] [])).2)
  = videoDao.selectByID (VNum 2) same_millisecond
  ∧ (∀ video',
       videoDao.selectByID (VNum 1)
         (table (videoService.synthesizeVideo tts_slow (VNum 1)
                   (Runtime same_millisecond [] [])).2)
       = Some video' →
       get video' "status" ∈ [VStr "processing"; VStr "pending"; VStr "failed"]).
Proof.
  split.
  - apply (proj1 (synthesizeVideo_touches_one_job tts_slow (VNum 1)
                    (Runtime same_millisecond [] [])) (VNum 2)).
    discriminate.
  - apply (proj1 (proj2 (synthesizeVideo_touches_one_job tts_slow (VNum 1)
                           (Runtime same_millisecond [] [])))).
Defined.

Lemma setupDefaults_fills_gaps_witness :
  envValidation.setupDefaults
    {[ "PORT" := "8080"; "LOG_LEVEL" := EmptyString ]} !! "PORT"
  = Some "8080"
  ∧ envValidation.setupDefaults
      {[ "PORT" := "8080"; "LOG_LEVEL" := EmptyString ]} !! "LOG_LEVEL"
    = Some "info"
  ∧ envValidation.setupDefaults
      {[ "PORT" := "8080"; "LOG_LEVEL" := EmptyString ]} !! "HOME"
    = None.
Proof.
  destruct (setupDefaults_fills_gaps
              {[ "PORT" := "8080"; "LOG_LEVEL" := EmptyString ]})
    as (Hfilled & Hother & _).
  split_and!.
  - pose proof (Hfilled "PORT" "3000" ltac:(listed)) as [_ Hport].
    rewrite Hport. reflexivity.
  - pose proof (Hfilled "LOG_LEVEL" "info" ltac:(listed)) as [_ Hlevel].
    rewrite Hlevel. reflexivity.
  - rewrite Hother; [reflexivity|not_listed].
Defined.

Lemma deleteVideo_removes_job_and_files_witness :
  ∃ video,
    videoDao.selectByID (VStr "1") [finished_job] = Some video
    ∧ videoDao.selectByID (VStr "1") [] = None
    ∧ ("model/r1.mp4" ∉ ({[ "model/other.mp4" ]} : gset string))
    ∧ ("tts/a1.wav" ∉ ({[ "model/other.mp4" ]} : gset string)).
Proof.
  destruct (proj1 (deleteVideo_removes_job_and_files "model" "tts" join_names
                     (VStr "1") [finished_job] finished_disk
                     (ex_intro _ 1%Z eq_refl))
              [] {[ "model/other.mp4" ]})
    as (video & Hsel & Hgone & _ & Hfile & Haudio & _).
  - reflexivity.
  - assert (videoDao.selectByID (VStr "1") [finished_job] = Some finished_job)
      as Hjob by reflexivity.
    rewrite Hjob in Hsel.
    assert (finished_job = video) as <- by congruence.
    exists finished_job.
    split_and!; [exact Hjob|exact Hgone| |].
    + apply Hfile; reflexivity.
    + apply Haudio; reflexivity.
Defined.

Lemma exportVideo_copies_result_witness :
  true = true
  ∧ (([finished_job], {[ "out.mp4" ]} ∪ finished_disk) : store)
    = ([finished_job], {[ "out.mp4" ]} ∪ finished_disk)
  ∧ ∃ video p,
      videoDao.selectByID (VNum 1) [finished_job] = Some video
      ∧ truthy (get video "file_path") = true
      ∧ join_names "model" (get video "file_path") = Returned p
      ∧ p ∈ finished_disk.
Proof.
  apply (proj1 (exportVideo_copies_result "model" join_names (VNum 1) "out.mp4"
                  [finished_job] finished_disk)
           true ([finished_job], {[ "out.mp4" ]} ∪ finished_disk)).
  reflexivity.
Defined.

(** ** The queue overview *)

Section queue_overview.
Implicit Types (r : row) (tbl : list row).

Lemma get_pick keys r key :
  key ∈ keys → get (taskService.pick keys r) key = get r key.
Proof.
  intros Hkey. unfold taskService.pick, get at 1.
  induction keys as [|k keys IH]; [by apply elem_of_nil in Hkey|].
  rewrite fmap_cons. cbn [list_to_map foldr].
  destruct (decide (key = k)) as [->|Hne].
  - by rewrite lookup_insert_eq.
  - rewrite lookup_insert_ne by done. apply IH.
    apply elem_of_cons in Hkey as [?|?]; [done|assumption].
Qed.

(** The queue overview agrees with the statistics and with the waiting
    queue: its three counts are the counts the statistics give for the
    same statuses, each list has as many entries as its count says, and
    the waiting entries are the waiting rows in table order, each with its
    place counted from 1 and the length of the queue. *)
Theorem getQueueStatus_agrees_with_stats tbl :
  (∀ status n,
     (status, n) ∈ taskService.queue (taskService.getQueueStatus tbl) →
     (status, n) ∈ taskService.getTaskStats tbl)
  ∧ taskService.queue (taskService.getQueueStatus tbl)
    = [ ("pending",
         length (taskService.pendingTasks (taskService.getQueueStatus tbl)));
        ("waiting",
         length (taskService.waitingTasks (taskService.getQueueStatus tbl)));
        ("processing",
         length (taskService.processingTasks (taskService.getQueueStatus tbl))) ]
  ∧ (∀ index entry,
       taskService.waitingTasks (taskService.getQueueStatus tbl) !! index
       = Some entry →
       ∃ r,
         videoDao.selectByStatus "waiting" tbl !! index = Some r
         ∧ get entry "id" = get r "id"
         ∧ get entry "name" = get r "name"
         ∧ get entry "queuePosition" = VNum (Z.of_nat index + 1)
         ∧ get entry "totalInQueue"
           = VNum (Z.of_nat (length (videoDao.selectByStatus "waiting" tbl)))).
Proof.
  unfold taskService.getQueueStatus, taskService.getWaitingTasks.
  cbn [taskService.queue taskService.pendingTasks taskService.waitingTasks
       taskService.processingTasks].
  split_and!.
  - intros status n Hin. unfold taskService.getTaskStats.
    rewrite length_imap in Hin.
    apply list_elem_of_In in Hin. apply list_elem_of_In. simpl in Hin |- *.
    intuition congruence.
  - by rewrite !length_fmap.
  - intros index entry Hentry.
    rewrite list_lookup_fmap in Hentry.
    rewrite list_lookup_imap in Hentry.
    destruct (videoDao.selectByStatus "waiting" tbl !! index) as [r|] eqn:Hr;
      [|discriminate].
    simpl in Hentry. injection Hentry as <-.
    exists r. split; [reflexivity|].
    rewrite !get_pick by listed.
    unfold get. rewrite !lookup_insert_ne by done.
    rewrite !lookup_insert_eq. done.
Qed.

End queue_overview.

Lemma getQueueStatus_agrees_with_stats_witness :
  taskService.queue (taskService.getQueueStatus three_jobs)
  = [ ("pending", 1%nat); ("waiting", 2%nat); ("processing", 0%nat) ]
  ∧ ∃ r,
      videoDao.selectByStatus "waiting" three_jobs !! 1%nat = Some r
      ∧ get r "id" = VNum 3.
Proof.
  destruct (getQueueStatus_agrees_with_stats three_jobs)
    as (_ & Hcounts & Hwaiting).
  split; [rewrite Hcounts; reflexivity|].
  destruct (Hwaiting 1%nat
              (taskService.pick [ "id"; "name"; "queuePosition"; "totalInQueue" ]
                 (<["totalInQueue" := VNum 2]>
                    (<["queuePosition" := VNum 2]>
                       (job 3 "waiting" 300 VNull VNull VNull)))))
    as (r & Hr & Hid & _); [reflexivity|].
  exists r. split; [exact Hr|]. rewrite <- Hid. reflexivity.
Defined.

(** ** From the finished render to the result file *)

Section finished_render.
Context (modelDir : string).
Context (path_join : string → value → completion string).
Implicit Types (video : row) (tbl : list row) (id : value).

Lemma selectByID_key id id' tbl :
  key_of id = key_of id' →
  videoDao.selectByID id tbl = videoDao.selectByID id' tbl.
Proof. unfold videoDao.selectByID. by intros ->. Qed.



End finished_render.


